(** * DebtFlow: ledger, progress and auto-bank engine

    A shallow embedding of [src/app/page.tsx]: the return resolver
    ([calcDefaultReturn], [effectiveReturn]), the statistics aggregator
    ([computeStats]), the debt aggregator ([sumPayments],
    [sumPaymentsToCard], [totalDebt], [remainingDebtFromCards]), the
    derived figures of the [App] component, its auto-bank effect and its
    event handlers.

    Modelling conventions.

    - A JavaScript [number] is an exact rational ([Q]).  NaN, the
      infinities and binary rounding error are outside the model: numbers
      reach the component through [JSON.parse] and [cleanNumber], which only
      deliver finite values.  Every concrete input used below is chosen so
      that IEEE-754 doubles give the same result.
    - [+(x).toFixed(2)] is [toFixed2]: the nearest multiple of 1/100, ties
      away from zero (the larger [n] for a non-negative argument).
    - Where the exact value is a tie ([9.995], [14.5]) or a whole quotient
      ([3.30 / 1.10]) the binary64 evaluation of the code can land on the
      neighbouring penny, integer or multiple.  The theorems about
      [toFixed2], [Math_round] and [Math_floor] results are therefore stated
      by what such a result must satisfy (a whole number of pennies within
      half a penny, an integer within one half, an integer [n] with
      [n <= q <= n + 1]) and not by the value the exact evaluation picks,
      except under whole-penny hypotheses where both agree.
    - [trim] strips the ASCII white space characters; the Unicode spaces
      [String.prototype.trim] also strips are not modelled.
    - A field typed [T | null] and declared optional is a [nullable T]
      with the three cases [Undefined], [Null], [Value].
    - React state is an explicit record [AppState]; every handler is a
      function on it.  Clock reads ([new Date()], [todayYYYYMMDD()]) and
      [uuid()] are arguments of the handler that performs them.
    - [Array.prototype.reduce] is [fold_left]. *)

From Stdlib Require Import QArith Qround Qreduction Qminmax Lqa Lia ZArith.
From Stdlib Require Import List String Ascii Bool.
From Stdlib Require Import Permutation DecimalString Arith.
Import ListNotations.
Open Scope string_scope.
Open Scope Q_scope.

(** ** Numbers *)

Definition number := Q.

Definition js_le (a b : number) : bool := Qle_bool a b.
Definition js_lt (a b : number) : bool := negb (Qle_bool b a).
Definition js_gt (a b : number) : bool := js_lt b a.
Definition js_eq (a b : number) : bool := Qeq_bool a b.

Definition Math_floor (x : number) : number := inject_Z (Qfloor x).

(** [Math.round]: nearest integer, ties towards plus infinity. *)
Definition Math_round (x : number) : number := inject_Z (Qfloor (x + (1 # 2))).

Definition Math_max (a b : number) : number := if js_lt a b then b else a.
Definition Math_min (a b : number) : number := if js_lt b a then b else a.

(** [+(x).toFixed(2)]. *)
Definition toFixed2 (x : number) : number :=
  if js_lt x 0
  then Qred (- (inject_Z (Qfloor (- x * 100 + (1 # 2))) / 100))
  else Qred (inject_Z (Qfloor (x * 100 + (1 # 2))) / 100).

(** ** Types *)

Inductive nullable (A : Type) : Type :=
| Undefined : nullable A
| Null : nullable A
| Value : A -> nullable A.
Arguments Undefined {A}.
Arguments Null {A}.
Arguments Value {A} _.

(** [x != null] *)
Definition not_nullish {A} (x : nullable A) : bool :=
  match x with Value _ => true | _ => false end.

(** [x ?? null] *)
Definition or_null {A} (x : nullable A) : nullable A :=
  match x with Value a => Value a | _ => Null end.

Inductive Sport := Football | Cricket | Tennis | Other.
Inductive BetStatus := Pending | Won | Lost.
Inductive PaymentSource := Betting | Trading | Savings.

Definition BetStatus_eqb (a b : BetStatus) : bool :=
  match a, b with
  | Pending, Pending | Won, Won | Lost, Lost => true
  | _, _ => false
  end.

Definition PaymentSource_eqb (a b : PaymentSource) : bool :=
  match a, b with
  | Betting, Betting | Trading, Trading | Savings, Savings => true
  | _, _ => false
  end.

Module Bet.
Record t := mk {
  id : string;
  date : string;
  description : string;
  sport : Sport;
  stake : number;
  oddsDecimal : number;
  status : BetStatus;
  returnOverride : nullable number;
  settledAt : nullable string;
  createdAt : string;
  updatedAt : string
}.
End Bet.

Module Settings.
Record t := mk {
  debtTotal : number;
  startingBankroll : number;
  targetAmount : number;
  bankPercentOnTarget : number;
  autoBankEnabled : bool;
  autoBankCardId : nullable string;
  runStartStake : number;
  runTargetStake : number
}.

Definition setTargetAmount (v : number) (s : t) : t :=
  mk (debtTotal s) (startingBankroll s) v (bankPercentOnTarget s) (autoBankEnabled s)
     (autoBankCardId s) (runStartStake s) (runTargetStake s).
Definition setBankPercentOnTarget (v : number) (s : t) : t :=
  mk (debtTotal s) (startingBankroll s) (targetAmount s) v (autoBankEnabled s)
     (autoBankCardId s) (runStartStake s) (runTargetStake s).
Definition setStartingBankroll (v : number) (s : t) : t :=
  mk (debtTotal s) v (targetAmount s) (bankPercentOnTarget s) (autoBankEnabled s)
     (autoBankCardId s) (runStartStake s) (runTargetStake s).
Definition setAutoBankEnabled (v : bool) (s : t) : t :=
  mk (debtTotal s) (startingBankroll s) (targetAmount s) (bankPercentOnTarget s) v
     (autoBankCardId s) (runStartStake s) (runTargetStake s).
Definition setAutoBankCardId (v : nullable string) (s : t) : t :=
  mk (debtTotal s) (startingBankroll s) (targetAmount s) (bankPercentOnTarget s)
     (autoBankEnabled s) v (runStartStake s) (runTargetStake s).
Definition setRunStartStake (v : number) (s : t) : t :=
  mk (debtTotal s) (startingBankroll s) (targetAmount s) (bankPercentOnTarget s)
     (autoBankEnabled s) (autoBankCardId s) v (runTargetStake s).
Definition setRunTargetStake (v : number) (s : t) : t :=
  mk (debtTotal s) (startingBankroll s) (targetAmount s) (bankPercentOnTarget s)
     (autoBankEnabled s) (autoBankCardId s) (runStartStake s) v.
End Settings.

Module Payment.
Record t := mk {
  id : string;
  date : string;
  amount : number;
  source : PaymentSource;
  note : option string;
  cardId : nullable string
}.
End Payment.

Module DebtCard.
Record t := mk {
  id : string;
  name : string;
  balance : number
}.
End DebtCard.

Definition DEFAULTS : Settings.t :=
  {| Settings.debtTotal := 0;
     Settings.startingBankroll := 5;
     Settings.targetAmount := 100;
     Settings.bankPercentOnTarget := 50;
     Settings.autoBankEnabled := true;
     Settings.autoBankCardId := Null;
     Settings.runStartStake := 5;
     Settings.runTargetStake := 100 |}.

(** ** Return resolver *)

(** The result is [number | null]: [None] is [null]. *)
Definition calcDefaultReturn (stake oddsDecimal : number) (status : BetStatus)
  : option number :=
  match status with
  | Won => Some (toFixed2 (stake * oddsDecimal))
  | Lost => Some 0
  | Pending => None
  end.

Definition effectiveReturn (b : Bet.t) : option number :=
  let def := calcDefaultReturn (Bet.stake b) (Bet.oddsDecimal b) (Bet.status b) in
  match Bet.returnOverride b with
  | Value v => Some v
  | _ => def
  end.

(** ** Statistics aggregator *)

Module Stats.
Record t := mk {
  settledCount : nat;
  wonCount : nat;
  hitRate : number;
  totalStaked : number;
  totalReturns : number;
  profit : number;
  progress : number
}.
End Stats.

Definition of_nat (n : nat) : number := inject_Z (Z.of_nat n).

Definition computeStats (bets : list Bet.t) (targetAmount : number) : Stats.t :=
  let settled := filter (fun b => negb (BetStatus_eqb (Bet.status b) Pending)) bets in
  let won := filter (fun b => BetStatus_eqb (Bet.status b) Won) settled in
  let totalStaked := fold_left (fun s b => s + Bet.stake b) settled 0 in
  let totalReturns :=
    fold_left (fun s b => s + match effectiveReturn b with Some r => r | None => 0 end)
              settled 0 in
  let profit := toFixed2 (totalReturns - totalStaked) in
  let hitRate :=
    match List.length settled with
    | O => 0
    | _ => Math_round (of_nat (List.length won) / of_nat (List.length settled) * 100)
    end in
  let rawProgress :=
    if js_gt targetAmount 0 then Math_round (profit / targetAmount * 100) else 0 in
  let progress := Math_min 100 (Math_max 0 rawProgress) in
  {| Stats.settledCount := List.length settled;
     Stats.wonCount := List.length won;
     Stats.hitRate := hitRate;
     Stats.totalStaked := totalStaked;
     Stats.totalReturns := totalReturns;
     Stats.profit := profit;
     Stats.progress := progress |}.

(** ** Debt aggregator *)

Definition sumPayments (pays : list Payment.t) (source : option PaymentSource) : number :=
  let n :=
    fold_left
      (fun s p =>
         s + match source with
             | Some src =>
                 if PaymentSource_eqb (Payment.source p) src then Payment.amount p else 0
             | None => Payment.amount p
             end)
      pays 0 in
  toFixed2 n.

(** [p.cardId === cardId] for a string [cardId]. *)
Definition cardId_is (c : nullable string) (cardId : string) : bool :=
  match c with
  | Value s => String.eqb s cardId
  | _ => false
  end.

Definition sumPaymentsToCard (pays : list Payment.t) (cardId : string) : number :=
  let n :=
    fold_left
      (fun s p => s + (if cardId_is (Payment.cardId p) cardId then Payment.amount p else 0))
      pays 0 in
  toFixed2 n.

(** [c.balance || 0] *)
Definition balance_or_zero (b : number) : number := if js_eq b 0 then 0 else b.

Definition totalDebt (cards : list DebtCard.t) (fallbackDebtTotal : number) : number :=
  match cards with
  | [] => toFixed2 fallbackDebtTotal
  | _ => toFixed2 (fold_left (fun s c => s + balance_or_zero (DebtCard.balance c)) cards 0)
  end.

Definition remainingDebtFromCards (cards : list DebtCard.t) (payments : list Payment.t)
  : number :=
  let rem :=
    fold_left
      (fun s c =>
         s + Math_max 0 (DebtCard.balance c - sumPaymentsToCard payments (DebtCard.id c)))
      cards 0 in
  toFixed2 rem.

(** ** Application state *)

(** [Partial<Bet>]: the add-bet form and the patch of [updateBet].  An
    absent key is [None] (or [Undefined] for the two nullable fields). *)
Module PartialBet.
Record t := mk {
  id : option string;
  date : option string;
  description : option string;
  sport : option Sport;
  stake : option number;
  oddsDecimal : option number;
  status : option BetStatus;
  returnOverride : nullable number;
  settledAt : nullable string;
  createdAt : option string;
  updatedAt : option string
}.

(** The two patches the component passes to [updateBet]. *)
Definition ofStatus (v : BetStatus) : t :=
  mk None None None None None None (Some v) Undefined Undefined None None.
Definition ofReturnOverride (v : nullable number) : t :=
  mk None None None None None None None v Undefined None None.

Definition setDate (v : string) (f : t) : t :=
  mk (id f) (Some v) (description f) (sport f) (stake f) (oddsDecimal f) (status f)
     (returnOverride f) (settledAt f) (createdAt f) (updatedAt f).
Definition setDescription (v : string) (f : t) : t :=
  mk (id f) (date f) (Some v) (sport f) (stake f) (oddsDecimal f) (status f)
     (returnOverride f) (settledAt f) (createdAt f) (updatedAt f).
Definition setSport (v : Sport) (f : t) : t :=
  mk (id f) (date f) (description f) (Some v) (stake f) (oddsDecimal f) (status f)
     (returnOverride f) (settledAt f) (createdAt f) (updatedAt f).
Definition setStake (v : number) (f : t) : t :=
  mk (id f) (date f) (description f) (sport f) (Some v) (oddsDecimal f) (status f)
     (returnOverride f) (settledAt f) (createdAt f) (updatedAt f).
Definition setOddsDecimal (v : number) (f : t) : t :=
  mk (id f) (date f) (description f) (sport f) (stake f) (Some v) (status f)
     (returnOverride f) (settledAt f) (createdAt f) (updatedAt f).
Definition setStatus (v : BetStatus) (f : t) : t :=
  mk (id f) (date f) (description f) (sport f) (stake f) (oddsDecimal f) (Some v)
     (returnOverride f) (settledAt f) (createdAt f) (updatedAt f).
Definition setReturnOverride (v : nullable number) (f : t) : t :=
  mk (id f) (date f) (description f) (sport f) (stake f) (oddsDecimal f) (status f)
     v (settledAt f) (createdAt f) (updatedAt f).
End PartialBet.

Module UIState.
Record t := mk {
  overview : bool;
  quickBank : bool;
  cards : bool;
  betting : bool;
  recent : bool;
  betLog : bool
}.
End UIState.

Inductive UIKey := KOverview | KQuickBank | KCards | KBetting | KRecent | KBetLog.

Definition DEFAULT_UI : UIState.t := UIState.mk true false false false false false.

Module EditingReturn.
Record t := mk { id : option string; value : string }.
End EditingReturn.

Module App.
Record t := mk {
  bets : list Bet.t;
  settings : Settings.t;
  payments : list Payment.t;
  bankedMilestones : number;
  cards : list DebtCard.t;
  ui : UIState.t;
  form : PartialBet.t;
  editingReturn : EditingReturn.t;
  qAmount : string;
  qSource : PaymentSource;
  qCard : string;
  qNote : string
}.

Definition setBets (f : list Bet.t -> list Bet.t) (s : t) : t :=
  mk (f (bets s)) (settings s) (payments s) (bankedMilestones s) (cards s) (ui s)
     (form s) (editingReturn s) (qAmount s) (qSource s) (qCard s) (qNote s).
Definition setSettings (f : Settings.t -> Settings.t) (s : t) : t :=
  mk (bets s) (f (settings s)) (payments s) (bankedMilestones s) (cards s) (ui s)
     (form s) (editingReturn s) (qAmount s) (qSource s) (qCard s) (qNote s).
Definition setPayments (f : list Payment.t -> list Payment.t) (s : t) : t :=
  mk (bets s) (settings s) (f (payments s)) (bankedMilestones s) (cards s) (ui s)
     (form s) (editingReturn s) (qAmount s) (qSource s) (qCard s) (qNote s).
Definition setBankedMilestones (n : number) (s : t) : t :=
  mk (bets s) (settings s) (payments s) n (cards s) (ui s)
     (form s) (editingReturn s) (qAmount s) (qSource s) (qCard s) (qNote s).
Definition setCards (f : list DebtCard.t -> list DebtCard.t) (s : t) : t :=
  mk (bets s) (settings s) (payments s) (bankedMilestones s) (f (cards s)) (ui s)
     (form s) (editingReturn s) (qAmount s) (qSource s) (qCard s) (qNote s).
Definition setUI (f : UIState.t -> UIState.t) (s : t) : t :=
  mk (bets s) (settings s) (payments s) (bankedMilestones s) (cards s) (f (ui s))
     (form s) (editingReturn s) (qAmount s) (qSource s) (qCard s) (qNote s).
Definition setForm (f : PartialBet.t -> PartialBet.t) (s : t) : t :=
  mk (bets s) (settings s) (payments s) (bankedMilestones s) (cards s) (ui s)
     (f (form s)) (editingReturn s) (qAmount s) (qSource s) (qCard s) (qNote s).
Definition setEditingReturn (f : EditingReturn.t -> EditingReturn.t) (s : t) : t :=
  mk (bets s) (settings s) (payments s) (bankedMilestones s) (cards s) (ui s)
     (form s) (f (editingReturn s)) (qAmount s) (qSource s) (qCard s) (qNote s).
Definition setQAmount (v : string) (s : t) : t :=
  mk (bets s) (settings s) (payments s) (bankedMilestones s) (cards s) (ui s)
     (form s) (editingReturn s) v (qSource s) (qCard s) (qNote s).
Definition setQSource (v : PaymentSource) (s : t) : t :=
  mk (bets s) (settings s) (payments s) (bankedMilestones s) (cards s) (ui s)
     (form s) (editingReturn s) (qAmount s) v (qCard s) (qNote s).
Definition setQCard (v : string) (s : t) : t :=
  mk (bets s) (settings s) (payments s) (bankedMilestones s) (cards s) (ui s)
     (form s) (editingReturn s) (qAmount s) (qSource s) v (qNote s).
Definition setQNote (v : string) (s : t) : t :=
  mk (bets s) (settings s) (payments s) (bankedMilestones s) (cards s) (ui s)
     (form s) (editingReturn s) (qAmount s) (qSource s) (qCard s) v.
End App.

(** The form a fresh component starts with and [addBet] resets to. *)
Definition blankForm (today : string) : PartialBet.t :=
  {| PartialBet.id := None;
     PartialBet.date := Some today;
     PartialBet.description := Some EmptyString;
     PartialBet.sport := Some Football;
     PartialBet.stake := Some 5;
     PartialBet.oddsDecimal := Some 2;
     PartialBet.status := Some Pending;
     PartialBet.returnOverride := Null;
     PartialBet.settledAt := Undefined;
     PartialBet.createdAt := None;
     PartialBet.updatedAt := None |}.

(** State of a first run with nothing in storage. *)
Definition initialState (today : string) : App.t :=
  {| App.bets := [];
     App.settings := DEFAULTS;
     App.payments := [];
     App.bankedMilestones := 0;
     App.cards := [];
     App.ui := DEFAULT_UI;
     App.form := blankForm today;
     App.editingReturn := EditingReturn.mk None EmptyString;
     App.qAmount := EmptyString;
     App.qSource := Savings;
     App.qCard := "none";
     App.qNote := EmptyString |}.

(** ** Derived figures of [App] *)

Definition stats (s : App.t) : Stats.t :=
  computeStats (App.bets s) (Settings.targetAmount (App.settings s)).

Definition bankedFromBetting (s : App.t) : number :=
  sumPayments (App.payments s) (Some Betting).

Definition availableProfitBetting (s : App.t) : number :=
  toFixed2 (Stats.profit (stats s) - bankedFromBetting s).

Definition debtTotalEffective (s : App.t) : number :=
  totalDebt (App.cards s) (Settings.debtTotal (App.settings s)).

Definition paidTotal (s : App.t) : number := sumPayments (App.payments s) None.

Definition remainingTotal (s : App.t) : number :=
  match App.cards s with
  | _ :: _ => remainingDebtFromCards (App.cards s) (App.payments s)
  | [] => Math_max 0 (toFixed2 (Settings.debtTotal (App.settings s) - paidTotal s))
  end.

Definition paidShown (s : App.t) : number :=
  toFixed2 (debtTotalEffective s - remainingTotal s).

Definition debtProgress (s : App.t) : number :=
  if js_gt (debtTotalEffective s) 0
  then Math_min 100 (Math_round (paidShown s / debtTotalEffective s * 100))
  else 0.

Definition currentBankroll (s : App.t) : number :=
  Settings.startingBankroll (App.settings s) + Stats.profit (stats s).

(** [settings.runStartStake ?? 5] and [settings.runTargetStake ?? 100] read
    fields that [Settings] always carries. *)
Definition runProgress (s : App.t) : number :=
  let runStart := Settings.runStartStake (App.settings s) in
  let runTarget := Settings.runTargetStake (App.settings s) in
  let denom := runTarget - runStart in
  if js_le denom 0 then 0
  else Math_min 100 (Math_max 0 (Math_round ((currentBankroll s - runStart) / denom * 100))).

(** ** Auto-bank effect *)

(** [a || b] on a nullable string: the empty string is falsy. *)
Definition str_or (a b : nullable string) : nullable string :=
  match a with
  | Value EmptyString => b
  | Value _ => a
  | _ => b
  end.

(** [cards[0]?.id ?? null] *)
Definition firstCardId (cards : list DebtCard.t) : nullable string :=
  match cards with
  | c :: _ => Value (DebtCard.id c)
  | [] => Null
  end.

(** Body of the effect on the values it reads.  [Some (p, n)]: the effect
    prepends payment [p] and sets [bankedMilestones] to [n]; [None]: it
    returns without calling either setter. *)
Definition autoBank (settings : Settings.t) (cards : list DebtCard.t)
    (availableProfitBetting bankedMilestones : number) (today uuid : string)
  : option (Payment.t * number) :=
  if negb (Settings.autoBankEnabled settings)
     || js_le (Settings.targetAmount settings) 0
     || js_le (Settings.bankPercentOnTarget settings) 0
  then None
  else
    let target := Settings.targetAmount settings in
    let multiples := Math_floor (availableProfitBetting / target) in
    if js_gt multiples bankedMilestones then
      let perMilestone := toFixed2 (target * (Settings.bankPercentOnTarget settings / 100)) in
      let count := multiples - bankedMilestones in
      let totalToBank := toFixed2 (perMilestone * count) in
      if js_gt totalToBank 0 then
        Some ({| Payment.id := uuid;
                 Payment.date := today;
                 Payment.amount := totalToBank;
                 Payment.source := Betting;
                 Payment.note := Some "Auto bank on target"%string;
                 Payment.cardId :=
                   str_or (Settings.autoBankCardId settings) (firstCardId cards) |},
              multiples)
      else None
    else None.

Definition autoBankEffect (today uuid : string) (s : App.t) : App.t :=
  match autoBank (App.settings s) (App.cards s) (availableProfitBetting s)
                 (App.bankedMilestones s) today uuid with
  | Some (p, n) => App.setBankedMilestones n (App.setPayments (cons p) s)
  | None => s
  end.

(** ** Event handlers *)

Definition toggleSection (key : UIKey) (s : App.t) : App.t :=
  App.setUI
    (fun prev =>
       match key with
       | KOverview =>
           UIState.mk (negb (UIState.overview prev)) (UIState.quickBank prev)
             (UIState.cards prev) (UIState.betting prev) (UIState.recent prev)
             (UIState.betLog prev)
       | KQuickBank =>
           UIState.mk (UIState.overview prev) (negb (UIState.quickBank prev))
             (UIState.cards prev) (UIState.betting prev) (UIState.recent prev)
             (UIState.betLog prev)
       | KCards =>
           UIState.mk (UIState.overview prev) (UIState.quickBank prev)
             (negb (UIState.cards prev)) (UIState.betting prev) (UIState.recent prev)
             (UIState.betLog prev)
       | KBetting =>
           UIState.mk (UIState.overview prev) (UIState.quickBank prev)
             (UIState.cards prev) (negb (UIState.betting prev)) (UIState.recent prev)
             (UIState.betLog prev)
       | KRecent =>
           UIState.mk (UIState.overview prev) (UIState.quickBank prev)
             (UIState.cards prev) (UIState.betting prev) (negb (UIState.recent prev))
             (UIState.betLog prev)
       | KBetLog =>
           UIState.mk (UIState.overview prev) (UIState.quickBank prev)
             (UIState.cards prev) (UIState.betting prev) (UIState.recent prev)
             (negb (UIState.betLog prev))
       end) s.

(** [String.prototype.trim] on the ASCII white space characters. *)
Definition is_space (c : ascii) : bool :=
  let n := nat_of_ascii c in
  Nat.eqb n 32 || (Nat.leb 9 n && Nat.leb n 13).

Fixpoint trimStart (s : string) : string :=
  match s with
  | EmptyString => EmptyString
  | String c r => if is_space c then trimStart r else s
  end.

Fixpoint trimEnd (s : string) : string :=
  match s with
  | EmptyString => EmptyString
  | String c r =>
      match trimEnd r with
      | EmptyString => if is_space c then EmptyString else String c EmptyString
      | r' => String c r'
      end
  end.

Definition trim (s : string) : string := trimEnd (trimStart s).

(** The guard and the object literal of [addBet]: the bet it prepends, or
    [None] when it returns early. *)
Definition newBet (form : PartialBet.t) (now uuid : string) : option Bet.t :=
  match PartialBet.date form, PartialBet.description form, PartialBet.sport form,
        PartialBet.stake form, PartialBet.oddsDecimal form, PartialBet.status form with
  | Some date, Some description, Some sport, Some stake, Some oddsDecimal, Some status =>
      if String.eqb date EmptyString || String.eqb description EmptyString then None
      else
        Some {| Bet.id := uuid;
                Bet.date := date;
                Bet.description := trim description;
                Bet.sport := sport;
                Bet.stake := stake;
                Bet.oddsDecimal := oddsDecimal;
                Bet.status := status;
                Bet.returnOverride :=
                  match PartialBet.returnOverride form with
                  | Value v => if js_eq v 0 then Null else Value v
                  | _ => Null
                  end;
                Bet.settledAt :=
                  if negb (BetStatus_eqb status Pending) then Value now else Null;
                Bet.createdAt := now;
                Bet.updatedAt := now |}
  | _, _, _, _, _, _ => None
  end.

Definition addBet (now uuid today : string) (s : App.t) : App.t :=
  match newBet (App.form s) now uuid with
  | Some bet => App.setForm (fun _ => blankForm today) (App.setBets (cons bet) s)
  | None => s
  end.

Definition or_else {A} (o : option A) (d : A) : A :=
  match o with Some a => a | None => d end.

(** The object literal of [updateBet]:
    [{ ...b, ...patch, updatedAt: now, settledAt: ... }].  [updatedNow] and
    [settledNow] are its two clock reads. *)
Definition patchBet (b : Bet.t) (patch : PartialBet.t) (updatedNow settledNow : string)
  : Bet.t :=
  {| Bet.id := or_else (PartialBet.id patch) (Bet.id b);
     Bet.date := or_else (PartialBet.date patch) (Bet.date b);
     Bet.description := or_else (PartialBet.description patch) (Bet.description b);
     Bet.sport := or_else (PartialBet.sport patch) (Bet.sport b);
     Bet.stake := or_else (PartialBet.stake patch) (Bet.stake b);
     Bet.oddsDecimal := or_else (PartialBet.oddsDecimal patch) (Bet.oddsDecimal b);
     Bet.status := or_else (PartialBet.status patch) (Bet.status b);
     Bet.returnOverride :=
       match PartialBet.returnOverride patch with
       | Undefined => Bet.returnOverride b
       | v => v
       end;
     Bet.settledAt :=
       match PartialBet.status patch with
       | Some st =>
           if negb (BetStatus_eqb st Pending) then Value settledNow else Bet.settledAt b
       | None => Bet.settledAt b
       end;
     Bet.createdAt := or_else (PartialBet.createdAt patch) (Bet.createdAt b);
     Bet.updatedAt := updatedNow |}.

Definition updateBet (id : string) (patch : PartialBet.t) (updatedNow settledNow : string)
    (s : App.t) : App.t :=
  App.setBets
    (map (fun b => if String.eqb (Bet.id b) id
                   then patchBet b patch updatedNow settledNow else b)) s.

Definition removeBet (id : string) (s : App.t) : App.t :=
  App.setBets (filter (fun b => negb (String.eqb (Bet.id b) id))) s.

Definition cancelReturnEditor (s : App.t) : App.t :=
  App.setEditingReturn (fun _ => EditingReturn.mk None EmptyString) s.

Definition bankPayment (amount : number) (source : PaymentSource) (note : option string)
    (cardId : nullable string) (today uuid : string) (s : App.t) : App.t :=
  if js_le amount 0 then s
  else
    App.setPayments
      (cons {| Payment.id := uuid;
               Payment.date := today;
               Payment.amount := toFixed2 amount;
               Payment.source := source;
               Payment.note := note;
               Payment.cardId := or_null cardId |}) s.

(** [a ?? b] *)
Definition nullish_or {A} (a b : nullable A) : nullable A :=
  match a with Value _ => a | _ => b end.

Definition bankFromBettingNow (cardId : nullable string) (today uuid : string) (s : App.t)
  : App.t :=
  let settings := App.settings s in
  let perMilestone :=
    toFixed2 (Settings.targetAmount settings * (Settings.bankPercentOnTarget settings / 100)) in
  let targetCard := or_null (nullish_or cardId (Settings.autoBankCardId settings)) in
  if js_le perMilestone 0 then s
  else if js_lt (availableProfitBetting s) perMilestone then s
  else bankPayment perMilestone Betting (Some "Manual bank"%string) targetCard today uuid s.

(** The "Bank now" button: [bankFromBettingNow(settings.autoBankCardId || null)]. *)
Definition bankNowClick (today uuid : string) (s : App.t) : App.t :=
  bankFromBettingNow (str_or (Settings.autoBankCardId (App.settings s)) Null) today uuid s.

Definition removePayment (id : string) (s : App.t) : App.t :=
  App.setPayments (filter (fun p => negb (String.eqb (Payment.id p) id))) s.

(** *** Handlers that read text fields

    [parseFloat] and [String(n)] are the host's; they are parameters here.
    [parseFloat s = None] stands for a result that is not a finite number. *)
Section TextInput.
Variable parseFloat : string -> option number.
Variable numberToString : number -> string.

Fixpoint replaceCommas (s : string) : string :=
  match s with
  | EmptyString => EmptyString
  | String c r => String (if Ascii.eqb c ","%char then "."%char else c) (replaceCommas r)
  end.

Definition cleanNumber (value : string) : number :=
  if String.eqb value EmptyString then 0
  else match parseFloat (replaceCommas value) with
       | Some n => n
       | None => 0
       end.

Definition openReturnEditor (b : Bet.t) (s : App.t) : App.t :=
  let current :=
    match Bet.returnOverride b with
    | Value v => numberToString v
    | _ => EmptyString
    end in
  App.setEditingReturn (fun _ => EditingReturn.mk (Some (Bet.id b)) current) s.

Definition saveReturnEditor (updatedNow settledNow : string) (s : App.t) : App.t :=
  match EditingReturn.id (App.editingReturn s) with
  | None => s
  | Some id =>
      if String.eqb id EmptyString then s
      else
        let trimmed := trim (EditingReturn.value (App.editingReturn s)) in
        let override :=
          if String.eqb trimmed EmptyString then Null else Value (cleanNumber trimmed) in
        App.setEditingReturn (fun _ => EditingReturn.mk None EmptyString)
          (updateBet id (PartialBet.ofReturnOverride override) updatedNow settledNow s)
  end.

(** The "Bank" button of the quick-bank section. *)
Definition quickBankClick (today uuid : string) (s : App.t) : App.t :=
  let amt := cleanNumber (App.qAmount s) in
  if PaymentSource_eqb (App.qSource s) Betting && js_gt amt (availableProfitBetting s)
  then s
  else
    let note :=
      match App.qSource s with
      | Trading => if String.eqb (App.qNote s) EmptyString then None else Some (App.qNote s)
      | _ => None
      end in
    let card :=
      if String.eqb (App.qCard s) "none" then Null else Value (App.qCard s) in
    App.setQNote EmptyString
      (App.setQAmount EmptyString
         (bankPayment amt (App.qSource s) note card today uuid s)).

(** The "Add card" button of [AddCardForm], with its two text fields. *)
Definition addCardClick (name bal uuid : string) (s : App.t) : App.t :=
  let b := cleanNumber bal in
  if String.eqb name EmptyString || js_le b 0 then s
  else App.setCards (cons (DebtCard.mk uuid (trim name) (toFixed2 b))) s.

Definition renameCard (id v : string) (s : App.t) : App.t :=
  App.setCards
    (map (fun x => if String.eqb (DebtCard.id x) id
                   then DebtCard.mk (DebtCard.id x) v (DebtCard.balance x) else x)) s.

Definition setCardBalance (id v : string) (s : App.t) : App.t :=
  App.setCards
    (map (fun x => if String.eqb (DebtCard.id x) id
                   then DebtCard.mk (DebtCard.id x) (DebtCard.name x) (cleanNumber v)
                   else x)) s.

Definition removeCard (id : string) (s : App.t) : App.t :=
  App.setCards (filter (fun x => negb (String.eqb (DebtCard.id x) id))) s.

(** Everything that changes the state: one constructor per handler or
    inline callback of the component, and the auto-bank effect. *)
Inductive Action :=
| ToggleSection (key : UIKey)
| AutoBankEffect (today uuid : string)
| FormDate (v : string)
| FormDescription (v : string)
| FormSport (v : Sport)
| FormStake (v : string)
| FormOdds (v : string)
| FormStatus (v : BetStatus)
| FormReturnOverride (v : string)
| AddBet (now uuid today : string)
| StatusControl (id : string) (v : BetStatus) (updatedNow settledNow : string)
| RemoveBet (id : string)
| OpenReturnEditor (b : Bet.t)
| EditReturnValue (v : string)
| SaveReturnEditor (updatedNow settledNow : string)
| CancelReturnEditor
| QAmount (v : string)
| QSource (v : PaymentSource)
| QCard (v : string)
| QNote (v : string)
| QuickBank (today uuid : string)
| BankNow (today uuid : string)
| RemovePayment (id : string)
| RenameCard (id v : string)
| CardBalance (id v : string)
| RemoveCard (id : string)
| AddCard (name bal uuid : string)
| AutoBankTo (v : string)
| AutoBankEnabled (v : bool)
| TargetProfit (v : string)
| BankPercent (v : string)
| StartingBankroll (v : string)
| RunStart (v : string)
| RunTarget (v : string).

Definition step (a : Action) (s : App.t) : App.t :=
  match a with
  | ToggleSection key => toggleSection key s
  | AutoBankEffect today uuid => autoBankEffect today uuid s
  | FormDate v => App.setForm (PartialBet.setDate v) s
  | FormDescription v => App.setForm (PartialBet.setDescription v) s
  | FormSport v => App.setForm (PartialBet.setSport v) s
  | FormStake v => App.setForm (PartialBet.setStake (cleanNumber v)) s
  | FormOdds v => App.setForm (PartialBet.setOddsDecimal (cleanNumber v)) s
  | FormStatus v => App.setForm (PartialBet.setStatus v) s
  | FormReturnOverride v =>
      App.setForm
        (PartialBet.setReturnOverride
           (if String.eqb v EmptyString then Null else Value (cleanNumber v))) s
  | AddBet now uuid today => addBet now uuid today s
  | StatusControl id v updatedNow settledNow =>
      updateBet id (PartialBet.ofStatus v) updatedNow settledNow s
  | RemoveBet id => removeBet id s
  | OpenReturnEditor b => openReturnEditor b s
  | EditReturnValue v =>
      App.setEditingReturn (fun e => EditingReturn.mk (EditingReturn.id e) v) s
  | SaveReturnEditor updatedNow settledNow => saveReturnEditor updatedNow settledNow s
  | CancelReturnEditor => cancelReturnEditor s
  | QAmount v => App.setQAmount v s
  | QSource v => App.setQSource v s
  | QCard v => App.setQCard v s
  | QNote v => App.setQNote v s
  | QuickBank today uuid => quickBankClick today uuid s
  | BankNow today uuid => bankNowClick today uuid s
  | RemovePayment id => removePayment id s
  | RenameCard id v => renameCard id v s
  | CardBalance id v => setCardBalance id v s
  | RemoveCard id => removeCard id s
  | AddCard name bal uuid => addCardClick name bal uuid s
  | AutoBankTo v =>
      App.setSettings
        (Settings.setAutoBankCardId (if String.eqb v "none" then Null else Value v)) s
  | AutoBankEnabled v => App.setSettings (Settings.setAutoBankEnabled v) s
  | TargetProfit v => App.setSettings (Settings.setTargetAmount (cleanNumber v)) s
  | BankPercent v =>
      App.setSettings
        (Settings.setBankPercentOnTarget
           (Math_max 0 (Math_min 100 (Math_round (cleanNumber v))))) s
  | StartingBankroll v => App.setSettings (Settings.setStartingBankroll (cleanNumber v)) s
  | RunStart v => App.setSettings (Settings.setRunStartStake (cleanNumber v)) s
  | RunTarget v => App.setSettings (Settings.setRunTargetStake (cleanNumber v)) s
  end.

(** A run of the application: actions applied in order. *)
Definition run (acts : list Action) (s : App.t) : App.t :=
  fold_left (fun st a => step a st) acts s.
End TextInput.

(** ** Figures computed inline in the markup *)

(** The "Remaining" figure of one card in the cards list:
    [Math.max(0, +(c.balance - paidToCard).toFixed(2))]. *)
Definition cardRemaining (c : DebtCard.t) (payments : list Payment.t) : number :=
  let paidToCard := sumPaymentsToCard payments (DebtCard.id c) in
  Math_max 0 (toFixed2 (DebtCard.balance c - paidToCard)).

(** The profit figure of one row of the bet log:
    [ret == null ? null : +(ret - b.stake).toFixed(2)]. *)
Definition rowProfit (b : Bet.t) : option number :=
  match effectiveReturn b with
  | None => None
  | Some ret => Some (toFixed2 (ret - Bet.stake b))
  end.

(** ** Reference notions used in the statements *)

(** Sum of [g] over a list, written without an accumulator. *)
Definition sumOf {A : Type} (g : A -> number) (l : list A) : number :=
  fold_right (fun x acc => g x + acc) 0 l.

(** A whole number of hundredths. *)
Definition is_pennies (x : number) : Prop := exists n : Z, x == inject_Z n / 100.

(** ** Sample data *)

Definition wonBet : Bet.t :=
  Bet.mk "1" "2025-01-01" "A" Football 10 2 Won Undefined Undefined "" "".


(** Legacy mode with a whole-penny total and two payments. *)
Definition legacyPaid : App.t :=
  App.setPayments
    (fun _ => [Payment.mk "p1" "2025-01-01" 120.50 Savings None Null;
               Payment.mk "p2" "2025-01-02" 79.25 Trading None Null])
    (App.setSettings (fun _ => Settings.mk 800 5 100 50 true Null 5 100)
       (initialState "2025-01-01")).

(** One card of 1000 and no payments yet. *)
Definition oneCard : App.t :=
  App.setCards (fun _ => [DebtCard.mk "c1" "Barclaycard" 1000]) (initialState "2025-01-01").

(** A payment of 200 that names no card. *)
Definition unearmarked : Payment.t :=
  Payment.mk "p1" "2025-03-01" 200 Savings None Null.

(** One won bet (stake 10 at 30.0): profit 290, nothing banked yet. *)
Definition richState : App.t :=
  App.setBets
    (fun _ => [Bet.mk "b1" "2025-01-01" "A" Football 10 30 Won Undefined
                 (Value "2025-01-01T10:00:00.000Z") "2025-01-01T09:00:00.000Z"
                 "2025-01-01T10:00:00.000Z"])
    (initialState "2025-01-01").

(** [richState] after the effect has run once: one payment of 100, counter 2,
    190 still available. *)
Definition bankedState : App.t := autoBankEffect "2025-01-02" "u1" richState.


(** A bet settled as won at 10:00. *)
Definition settledBet : Bet.t :=
  Bet.mk "b1" "2025-01-01" "A" Football 10 2 Won Undefined
    (Value "2025-01-01T10:00:00.000Z") "2025-01-01T09:00:00.000Z" "2025-01-01T10:00:00.000Z".

Definition settledState : App.t :=
  App.setBets (fun _ => [settledBet]) (initialState "2025-01-01").

(** The add-bet form filled in for a won bet with a return override of 0. *)
Definition zeroOverrideForm : PartialBet.t :=
  PartialBet.setReturnOverride (Value 0)
    (PartialBet.setStatus Won
       (PartialBet.setDescription "Villa v Palace" (blankForm "2025-01-01"))).

(** The return editor open on bet [b1] with the text [0] typed in. *)
Definition editingZero : App.t :=
  App.setEditingReturn (fun _ => EditingReturn.mk (Some "b1") "0") settledState.

(** A [parseFloat] that reads the text [0] and nothing else. *)
Definition parseZero (s : string) : option number :=
  if String.eqb s "0" then Some 0 else None.

(** A [String(n)] that prints nothing. *)
Definition printNothing (n : number) : string := EmptyString.

(** A won bet returning 300 on a stake of 10, and a lost bet. *)
Definition richBet : Bet.t :=
  Bet.mk "1" "2025-01-01" "A" Football 10 30 Won Undefined Undefined "" "".

Definition lostBet : Bet.t :=
  Bet.mk "2" "2025-01-02" "B" Football 10 3 Lost Undefined Undefined "" "".

(** The data of [runSelfTests]. *)
Definition sample : list Bet.t :=
  [ Bet.mk "1" "2025-01-01" "A" Football 10 2 Won Undefined Undefined "" "";
    Bet.mk "2" "2025-01-02" "B" Football 10 3 Lost Undefined Undefined "" "";
    Bet.mk "3" "2025-01-03" "C" Tennis 5 2 Pending Undefined Undefined "" "" ].

Definition pays : list Payment.t :=
  [ Payment.mk "p1" "2025-01-01" 20 Betting None Undefined;
    Payment.mk "p2" "2025-01-02" 10 Trading None Undefined;
    Payment.mk "p3" "2025-01-03" 5 Savings None Undefined ].

Definition cards : list DebtCard.t :=
  [ DebtCard.mk "c1" "Barclaycard" 1000; DebtCard.mk "c2" "Amex" 500 ].

Definition paysToCards : list Payment.t :=
  [ Payment.mk "q1" "2025-03-01" 200 Savings None (Value "c1");
    Payment.mk "q2" "2025-03-05" 100 Trading None (Value "c2") ].

(** The override field of a form counts as absent at creation. *)
Definition zero_or_nullish (x : nullable number) : Prop :=
  match x with
  | Value v => v == 0
  | _ => True
  end.

(** ** Date stamp *)

(** [String(n)] for a non-negative integer. *)
Definition String_of_nat (n : nat) : string := NilEmpty.string_of_uint (Nat.to_uint n).

(** [s.padStart(2, "0")] *)
Definition padStart2 (s : string) : string :=
  match String.length s with
  | O => "00"
  | S O => String "0" s
  | _ => s
  end.

(** [todayYYYYMMDD], on what it reads from the clock: [getFullYear()],
    [getMonth()] (0 to 11) and [getDate()]. *)
Definition todayYYYYMMDD (fullYear month date : nat) : string :=
  let mm := padStart2 (String_of_nat (month + 1)) in
  let dd := padStart2 (String_of_nat date) in
  String_of_nat fullYear ++ "-" ++ mm ++ "-" ++ dd.

(** ** Notions used in the further properties *)

(** A whole number. *)
Definition is_integer (x : number) : Prop := exists n : Z, x == inject_Z n.

(** A payment of a non-negative whole number of pennies. *)
Definition payment_ok (p : Payment.t) : Prop :=
  is_pennies (Payment.amount p) /\ 0 <= Payment.amount p.

(** A settled bet carries a settlement time. *)
Definition bet_stamped (b : Bet.t) : Prop :=
  Bet.status b <> Pending -> exists t, Bet.settledAt b = Value t.

(** The bets [computeStats] looks at. *)
Definition settledOf (bets : list Bet.t) : list Bet.t :=
  filter (fun b => negb (BetStatus_eqb (Bet.status b) Pending)) bets.

(** Only white space. *)
Fixpoint all_spaces (s : string) : bool :=
  match s with
  | EmptyString => true
  | String c r => is_space c && all_spaces r
  end.

(** A pending bet, and the sample with it inserted in the middle. *)
Definition pendingBet : Bet.t :=
  Bet.mk "9" "2025-01-04" "D" Other 7 4 Pending Undefined Undefined "" "".

(** The two cards of the self tests with their two payments. *)
Definition cardsState : App.t :=
  App.setPayments (fun _ => paysToCards)
    (App.setCards (fun _ => cards) (initialState "2025-03-06")).

(** A payment that names a card that no longer exists. *)
Definition orphanPayment : Payment.t :=
  Payment.mk "q3" "2025-03-07" 50 Savings None (Value "gone").

(** Card [c1] of 1000 already paid 1200, card [c2] of 500 untouched. *)
Definition overpaidState : App.t :=
  App.setPayments
    (fun _ => [Payment.mk "q1" "2025-03-01" 1200 Savings None (Value "c1")])
    (App.setCards (fun _ => cards) (initialState "2025-03-06")).

(** A further 100 to card [c1]. *)
Definition moreToC1 : Payment.t :=
  Payment.mk "q4" "2025-03-08" 100 Savings None (Value "c1").

(** A manual betting payment of 50 and a savings payment of 40. *)
Definition bettingFifty : Payment.t :=
  Payment.mk "m1" "2025-01-03" 50 Betting (Some "Manual bank") Null.

Definition savingsForty : Payment.t :=
  Payment.mk "m2" "2025-01-03" 40 Savings None Null.

(** [richState] with 120.40 typed into the quick-bank form, source Betting. *)
Definition quickBetting : App.t :=
  App.setQSource Betting (App.setQAmount "120.40" richState).

(** A [parseFloat] that reads the text [120.40] and nothing else. *)
Definition parseAmount (s : string) : option number :=
  if String.eqb s "120.40" then Some 120.40 else None.

(** The add-bet form filled in for a pending bet. *)
Definition pendingForm : PartialBet.t :=
  PartialBet.setDescription "Villa v Palace" (blankForm "2025-01-01").

(** A [parseFloat] that reads the text [1200] and nothing else. *)
Definition parseBalance (s : string) : option number :=
  if String.eqb s "1200" then Some 1200 else None.

(** [ui[key]] *)
Definition ui_flag (key : UIKey) (u : UIState.t) : bool :=
  match key with
  | KOverview => UIState.overview u
  | KQuickBank => UIState.quickBank u
  | KCards => UIState.cards u
  | KBetting => UIState.betting u
  | KRecent => UIState.recent u
  | KBetLog => UIState.betLog u
  end.

(** Both cards of the self tests paid in full, the first one over-paid. *)
Definition paidOffState : App.t :=
  App.setPayments
    (fun _ => [Payment.mk "q1" "2025-03-01" 1200 Savings None (Value "c1");
               Payment.mk "q2" "2025-03-05" 500 Trading None (Value "c2")])
    (App.setCards (fun _ => cards) (initialState "2025-03-06")).

(** * Properties *)

(** ** Comparisons and rounding *)

Lemma js_le_iff (a b : number) : js_le a b = true <-> a <= b.
Proof. unfold js_le. apply Qle_bool_iff. Qed.

Lemma js_lt_iff (a b : number) : js_lt a b = true <-> a < b.
Proof.
  unfold js_lt. rewrite negb_true_iff.
  destruct (Qle_bool b a) eqn:E.
  - apply Qle_bool_iff in E. split; [discriminate | intros H; lra].
  - split; [intros _ | reflexivity].
    destruct (Qlt_le_dec a b) as [H | H]; [exact H |].
    apply Qle_bool_iff in H. congruence.
Qed.

Lemma js_lt_false_iff (a b : number) : js_lt a b = false <-> b <= a.
Proof.
  destruct (js_lt a b) eqn:E.
  - apply js_lt_iff in E. split; [discriminate | intros H; lra].
  - split; [intros _ | reflexivity].
    destruct (Qlt_le_dec a b) as [H | H]; [| exact H].
    apply js_lt_iff in H. congruence.
Qed.

Lemma js_le_false_iff (a b : number) : js_le a b = false <-> b < a.
Proof.
  destruct (js_le a b) eqn:E.
  - apply js_le_iff in E. split; [discriminate | intros H; lra].
  - split; [intros _ | reflexivity].
    destruct (Qlt_le_dec b a) as [H | H]; [exact H |].
    apply js_le_iff in H. congruence.
Qed.

Lemma js_gt_iff (a b : number) : js_gt a b = true <-> b < a.
Proof. unfold js_gt. apply js_lt_iff. Qed.

Lemma js_eq_iff (a b : number) : js_eq a b = true <-> a == b.
Proof. unfold js_eq. apply Qeq_bool_iff. Qed.

Ltac js_cases :=
  repeat match goal with
    | H : js_lt _ _ = true |- _ => apply js_lt_iff in H
    | H : js_lt _ _ = false |- _ => apply js_lt_false_iff in H
    | H : js_le _ _ = true |- _ => apply js_le_iff in H
    | H : js_le _ _ = false |- _ => apply js_le_false_iff in H
    | H : js_gt _ _ = true |- _ => apply js_gt_iff in H
    | H : js_gt _ _ = false |- _ => apply js_lt_false_iff in H
    | H : js_eq _ _ = true |- _ => apply js_eq_iff in H
    end.

Lemma Math_max_spec (a b : number) : Math_max a b == Qmax a b.
Proof.
  unfold Math_max. destruct (js_lt a b) eqn:E; js_cases.
  - symmetry. apply Q.max_r. lra.
  - symmetry. apply Q.max_l. exact E.
Qed.

Lemma Math_min_spec (a b : number) : Math_min a b == Qmin a b.
Proof.
  unfold Math_min. destruct (js_lt b a) eqn:E; js_cases.
  - symmetry. apply Q.min_r. lra.
  - symmetry. apply Q.min_l. exact E.
Qed.

Lemma Math_floor_mono (x y : number) : x <= y -> Math_floor x <= Math_floor y.
Proof.
  intros H. unfold Math_floor. rewrite <- Zle_Qle. apply Qfloor_resp_le. exact H.
Qed.

Lemma Math_round_mono (x y : number) : x <= y -> Math_round x <= Math_round y.
Proof.
  intros H. unfold Math_round. rewrite <- Zle_Qle. apply Qfloor_resp_le. lra.
Qed.

Lemma Math_round_Z (z : Z) : Math_round (inject_Z z) = inject_Z z.
Proof.
  unfold Math_round. f_equal.
  assert (H1 : (z <= Qfloor (inject_Z z + (1 # 2)))%Z).
  { rewrite <- (Qfloor_Z z) at 1. apply Qfloor_resp_le. lra. }
  assert (H2 : (Qfloor (inject_Z z + (1 # 2)) < z + 1)%Z).
  { rewrite Zlt_Qlt. eapply Qle_lt_trans; [apply Qfloor_le |].
    rewrite inject_Z_plus. change (inject_Z 1) with 1. lra. }
  lia.
Qed.

Lemma div100 (n : Q) : n / 100 == n * (1 # 100).
Proof. field. Qed.

(** Rounding to two decimals, stated on its own: the result is a whole
    number of hundredths and lies within half a hundredth of the argument. *)

Lemma toFixed2_pennies (x : number) : is_pennies (toFixed2 x).
Proof.
  unfold toFixed2. destruct (js_lt x 0).
  - exists (- Qfloor (- x * 100 + (1 # 2)))%Z.
    rewrite Qred_correct, inject_Z_opp. field.
  - exists (Qfloor (x * 100 + (1 # 2))). apply Qred_correct.
Qed.

Lemma toFixed2_near (x : number) :
  toFixed2 x - x <= 1 # 200 /\ x - toFixed2 x <= 1 # 200.
Proof.
  unfold toFixed2. destruct (js_lt x 0) eqn:E; rewrite Qred_correct.
  - pose proof (Qfloor_le (- x * 100 + (1 # 2))) as H1.
    pose proof (Qlt_floor (- x * 100 + (1 # 2))) as H2.
    rewrite inject_Z_plus in H2. change (inject_Z 1) with 1 in H2.
    set (n := inject_Z (Qfloor (- x * 100 + (1 # 2)))) in *.
    rewrite div100. split; lra.
  - pose proof (Qfloor_le (x * 100 + (1 # 2))) as H1.
    pose proof (Qlt_floor (x * 100 + (1 # 2))) as H2.
    rewrite inject_Z_plus in H2. change (inject_Z 1) with 1 in H2.
    set (n := inject_Z (Qfloor (x * 100 + (1 # 2)))) in *.
    rewrite div100. split; lra.
Qed.

Lemma js_lt_comp (x y a b : number) : x == y -> a == b -> js_lt x a = js_lt y b.
Proof.
  intros Hx Ha. destruct (js_lt x a) eqn:E1, (js_lt y b) eqn:E2; js_cases;
    try reflexivity; lra.
Qed.

Lemma toFixed2_comp (x y : number) : x == y -> toFixed2 x = toFixed2 y.
Proof.
  intros H. unfold toFixed2.
  rewrite (js_lt_comp x y 0 0 H (Qeq_refl 0)).
  assert (E1 : Qfloor (- x * 100 + (1 # 2)) = Qfloor (- y * 100 + (1 # 2))).
  { apply Qfloor_comp. rewrite H. reflexivity. }
  assert (E2 : Qfloor (x * 100 + (1 # 2)) = Qfloor (y * 100 + (1 # 2))).
  { apply Qfloor_comp. rewrite H. reflexivity. }
  rewrite E1, E2. reflexivity.
Qed.

Lemma Qfloor_half (z : Z) : Qfloor (inject_Z z + (1 # 2)) = z.
Proof.
  pose proof (Math_round_Z z) as H. unfold Math_round in H.
  apply (f_equal Qfloor) in H. rewrite !Qfloor_Z in H. exact H.
Qed.

Lemma toFixed2_of_pennies (x : number) : is_pennies x -> toFixed2 x == x.
Proof.
  intros [n Hn]. unfold toFixed2. destruct (js_lt x 0); rewrite Qred_correct.
  - assert (E : - x * 100 + (1 # 2) == inject_Z (- n) + (1 # 2)).
    { rewrite Hn, inject_Z_opp. field. }
    rewrite (Qfloor_comp _ _ E), Qfloor_half, Hn, inject_Z_opp. field.
  - assert (E : x * 100 + (1 # 2) == inject_Z n + (1 # 2)).
    { rewrite Hn. field. }
    rewrite (Qfloor_comp _ _ E), Qfloor_half, Hn. reflexivity.
Qed.

Lemma toFixed2_canonical (x : number) : exists q, toFixed2 x = Qred q.
Proof. unfold toFixed2. destruct (js_lt x 0); eexists; reflexivity. Qed.

Lemma toFixed2_idem (x : number) : toFixed2 (toFixed2 x) = toFixed2 x.
Proof.
  pose proof (toFixed2_of_pennies _ (toFixed2_pennies x)) as H.
  destruct (toFixed2_canonical (toFixed2 x)) as [q1 E1].
  destruct (toFixed2_canonical x) as [q2 E2].
  rewrite E1 in *. rewrite E2 in *.
  apply Qred_eq_iff. rewrite !Qred_correct in H. exact H.
Qed.

Lemma toFixed2_mono (x y : number) : x <= y -> toFixed2 x <= toFixed2 y.
Proof.
  intros H. unfold toFixed2.
  destruct (js_lt x 0) eqn:Ex, (js_lt y 0) eqn:Ey; js_cases; rewrite !Qred_correct, !div100.
  - assert (L : inject_Z (Qfloor (- y * 100 + (1 # 2)))
                <= inject_Z (Qfloor (- x * 100 + (1 # 2)))).
    { rewrite <- Zle_Qle. apply Qfloor_resp_le. lra. }
    lra.
  - assert (L1 : inject_Z 0 <= inject_Z (Qfloor (- x * 100 + (1 # 2)))).
    { rewrite <- Zle_Qle. rewrite <- (Qfloor_Z 0). apply Qfloor_resp_le.
      change (inject_Z 0) with 0. lra. }
    assert (L2 : inject_Z 0 <= inject_Z (Qfloor (y * 100 + (1 # 2)))).
    { rewrite <- Zle_Qle. rewrite <- (Qfloor_Z 0). apply Qfloor_resp_le.
      change (inject_Z 0) with 0. lra. }
    change (inject_Z 0) with 0 in L1, L2. lra.
  - lra.
  - assert (L : inject_Z (Qfloor (x * 100 + (1 # 2)))
                <= inject_Z (Qfloor (y * 100 + (1 # 2)))).
    { rewrite <- Zle_Qle. apply Qfloor_resp_le. lra. }
    lra.
Qed.

(** ** Return resolver *)

(** C4.  [effectiveReturn] yields the override whenever [returnOverride] is
    a value, whatever the status; with no override ([null] or absent) it
    yields [stake * oddsDecimal] rounded to two decimals for a won bet, [0]
    for a lost bet and [null] for a pending one. *)
Theorem effectiveReturn_resolves (b : Bet.t) :
  (forall v, Bet.returnOverride b = Value v -> effectiveReturn b = Some v) /\
  (not_nullish (Bet.returnOverride b) = false ->
   match Bet.status b with
   | Won =>
       exists r, effectiveReturn b = Some r /\ is_pennies r /\
                 r - Bet.stake b * Bet.oddsDecimal b <= 1 # 200 /\
                 Bet.stake b * Bet.oddsDecimal b - r <= 1 # 200
   | Lost => effectiveReturn b = Some 0
   | Pending => effectiveReturn b = None
   end).
Proof.
  split.
  - intros v Hv. unfold effectiveReturn. rewrite Hv. reflexivity.
  - intros Hn. unfold effectiveReturn.
    destruct (Bet.returnOverride b); try discriminate;
      destruct (Bet.status b); simpl; try reflexivity;
      (eexists; split; [reflexivity | split; [apply toFixed2_pennies | apply toFixed2_near]]).
Qed.

Lemma effectiveReturn_resolves_witness :
  effectiveReturn (Bet.mk "1" "2025-01-01" "A" Football 10 2 Lost (Value 7) Null "" "")
    = Some 7 /\
  exists r, effectiveReturn wonBet = Some r /\ is_pennies r /\
            r - 10 * 2 <= 1 # 200 /\ 10 * 2 - r <= 1 # 200.
Proof.
  split.
  - apply (proj1 (effectiveReturn_resolves _) 7). reflexivity.
  - apply (proj2 (effectiveReturn_resolves wonBet)). reflexivity.
Defined.

(** ** Milestone engine *)

Lemma Qdiv_le_pos (a b t : number) : 0 < t -> a <= b -> a / t <= b / t.
Proof.
  intros Ht Hab. unfold Qdiv. apply Qmult_le_compat_r; [exact Hab |].
  apply Qinv_le_0_compat. lra.
Qed.

Lemma autoBank_guarded (settings : Settings.t) (cards : list DebtCard.t)
    (avail avail' counter : number) (today uuid : string) :
  Math_floor (avail / Settings.targetAmount settings) <= counter ->
  avail' <= avail ->
  autoBank settings cards avail' counter today uuid = None.
Proof.
  intros Hc Hle. unfold autoBank.
  destruct (negb (Settings.autoBankEnabled settings)) eqn:En; [reflexivity |].
  destruct (js_le (Settings.targetAmount settings) 0) eqn:Et; [reflexivity |].
  simpl.
  destruct (js_le (Settings.bankPercentOnTarget settings) 0); [reflexivity |].
  destruct (js_gt (Math_floor (avail' / Settings.targetAmount settings)) counter) eqn:E;
    [| reflexivity].
  js_cases.
  pose proof (Math_floor_mono _ _ (Qdiv_le_pos avail' avail _ Et Hle)). lra.
Qed.

(** C1.  When the counter is at least [floor(availableProfit / target)],
    evaluating the auto-bank effect with that available profit, or with any
    lower one, emits no payment and leaves the state, counter included,
    as it is. *)
Theorem autoBank_idempotence_guard (settings : Settings.t) (cards : list DebtCard.t)
    (avail avail' counter : number) (today uuid : string) :
  Math_floor (avail / Settings.targetAmount settings) <= counter ->
  avail' <= avail ->
  autoBank settings cards avail' counter today uuid = None /\
  (forall s, App.settings s = settings -> App.cards s = cards ->
             availableProfitBetting s = avail' -> App.bankedMilestones s = counter ->
             autoBankEffect today uuid s = s /\
             App.payments (autoBankEffect today uuid s) = App.payments s /\
             App.bankedMilestones (autoBankEffect today uuid s) = counter).
Proof.
  intros Hc Hle.
  pose proof (autoBank_guarded settings cards avail avail' counter today uuid Hc Hle) as N.
  split; [exact N |].
  intros s Hs Hcards Ha Hb. unfold autoBankEffect.
  rewrite Hs, Hcards, Ha, Hb, N. repeat split; assumption.
Qed.

Lemma autoBank_idempotence_guard_witness :
  autoBank DEFAULTS [] 250 2 "2025-01-01" "u1" = None /\
  autoBank DEFAULTS [] 190 2 "2025-01-03" "u9" = None /\
  autoBankEffect "2025-01-03" "u9" bankedState = bankedState.
Proof.
  split; [| split].
  - apply (autoBank_idempotence_guard DEFAULTS [] 250 250 2 "2025-01-01" "u1");
      vm_compute; discriminate.
  - apply (autoBank_idempotence_guard DEFAULTS [] 250 190 2 "2025-01-03" "u9");
      vm_compute; discriminate.
  - apply (autoBank_idempotence_guard DEFAULTS [] 250 190 2 "2025-01-03" "u9");
      first [reflexivity | vm_compute; discriminate].
Defined.

Lemma autoBank_fired (settings : Settings.t) (cards : list DebtCard.t)
    (avail counter : number) (today uuid : string) (p : Payment.t) (n : number) :
  autoBank settings cards avail counter today uuid = Some (p, n) ->
  counter < n /\ n = Math_floor (avail / Settings.targetAmount settings) /\
  Payment.source p = Betting /\ 0 < Payment.amount p /\
  Payment.amount p =
    toFixed2 (toFixed2 (Settings.targetAmount settings
                        * (Settings.bankPercentOnTarget settings / 100))
              * (n - counter)).
Proof.
  unfold autoBank.
  destruct (negb (Settings.autoBankEnabled settings)
            || js_le (Settings.targetAmount settings) 0
            || js_le (Settings.bankPercentOnTarget settings) 0); [discriminate |].
  destruct (js_gt (Math_floor (avail / Settings.targetAmount settings)) counter) eqn:E;
    [| discriminate].
  match goal with |- context [js_gt ?t 0] => destruct (js_gt t 0) eqn:Et end;
    [| discriminate].
  intros H. injection H as <- <-. simpl. js_cases. repeat split; assumption.
Qed.

Lemma autoBankEffect_counter (today uuid : string) (s : App.t) :
  App.bankedMilestones (autoBankEffect today uuid s) = App.bankedMilestones s \/
  (App.bankedMilestones s < App.bankedMilestones (autoBankEffect today uuid s) /\
   App.bankedMilestones (autoBankEffect today uuid s)
   = Math_floor (availableProfitBetting s / Settings.targetAmount (App.settings s))).
Proof.
  unfold autoBankEffect.
  destruct (autoBank (App.settings s) (App.cards s) (availableProfitBetting s)
                     (App.bankedMilestones s) today uuid) as [[p n] |] eqn:E.
  - right. apply autoBank_fired in E. simpl. split; apply E.
  - left. reflexivity.
Qed.

Lemma step_counter (parseFloat : string -> option number)
    (numberToString : number -> string) (a : Action) (s : App.t) :
  match a with
  | AutoBankEffect today uuid =>
      App.bankedMilestones (step parseFloat numberToString a s) = App.bankedMilestones s \/
      (App.bankedMilestones s < App.bankedMilestones (step parseFloat numberToString a s) /\
       App.bankedMilestones (step parseFloat numberToString a s)
       = Math_floor (availableProfitBetting s / Settings.targetAmount (App.settings s)))
  | _ => App.bankedMilestones (step parseFloat numberToString a s) = App.bankedMilestones s
  end.
Proof.
  destruct a; simpl; try reflexivity.
  - apply autoBankEffect_counter.
  - unfold addBet. destruct (newBet (App.form s) now uuid); reflexivity.
  - unfold saveReturnEditor.
    destruct (EditingReturn.id (App.editingReturn s)) as [id |]; [| reflexivity].
    destruct (String.eqb id EmptyString); reflexivity.
  - unfold quickBankClick, bankPayment.
    destruct (PaymentSource_eqb (App.qSource s) Betting
              && js_gt (cleanNumber parseFloat (App.qAmount s)) (availableProfitBetting s));
      [reflexivity |].
    destruct (js_le (cleanNumber parseFloat (App.qAmount s)) 0); reflexivity.
  - unfold bankNowClick, bankFromBettingNow, bankPayment.
    repeat match goal with |- context [if ?c then _ else _] => destruct c end; reflexivity.
  - unfold addCardClick.
    destruct (String.eqb name EmptyString || js_le (cleanNumber parseFloat bal) 0);
      reflexivity.
Qed.

(** C2.  The milestone counter never decreases: the auto-bank effect either
    leaves [bankedMilestones] as it is or sets it to a strictly larger whole
    number, the count of multiples of the target in the available profit
    (an integer [n] with [n <= availableProfit / target <= n + 1]); every
    other handler leaves it unchanged; hence it is non-decreasing along
    every run. *)
Theorem bankedMilestones_monotone (parseFloat : string -> option number)
    (numberToString : number -> string) :
  (forall today uuid s,
      App.bankedMilestones (autoBankEffect today uuid s) = App.bankedMilestones s \/
      (App.bankedMilestones s < App.bankedMilestones (autoBankEffect today uuid s) /\
       is_integer (App.bankedMilestones (autoBankEffect today uuid s)) /\
       App.bankedMilestones (autoBankEffect today uuid s)
       <= availableProfitBetting s / Settings.targetAmount (App.settings s) /\
       availableProfitBetting s / Settings.targetAmount (App.settings s)
       <= App.bankedMilestones (autoBankEffect today uuid s) + 1)) /\
  (forall a s,
      match a with
      | AutoBankEffect _ _ => True
      | _ => App.bankedMilestones (step parseFloat numberToString a s)
             = App.bankedMilestones s
      end) /\
  (forall acts s,
      App.bankedMilestones s
      <= App.bankedMilestones (run parseFloat numberToString acts s)).
Proof.
  split; [| split].
  - intros today uuid s.
    destruct (autoBankEffect_counter today uuid s) as [H | [Hlt Hn]]; [left; exact H |].
    right. split; [exact Hlt |]. rewrite Hn. unfold Math_floor.
    pose proof (Qfloor_le (availableProfitBetting s / Settings.targetAmount (App.settings s)))
      as Lo.
    pose proof (Qlt_floor (availableProfitBetting s / Settings.targetAmount (App.settings s)))
      as Hi.
    rewrite inject_Z_plus in Hi. change (inject_Z 1) with 1 in Hi.
    split; [eexists; reflexivity |]. split; [exact Lo | lra].
  - intros a s. pose proof (step_counter parseFloat numberToString a s) as H.
    destruct a; try exact H. exact I.
  - intros acts. unfold run. induction acts as [| a acts IH]; intros s; simpl.
    + lra.
    + eapply Qle_trans; [| apply IH].
      pose proof (step_counter parseFloat numberToString a s) as H.
      destruct a; try (rewrite H; lra).
      destruct H as [H | [H _]]; [rewrite H; lra | lra].
Qed.

Lemma perMilestone_formula (target pct : number) :
  toFixed2 (target * (pct / 100)) = toFixed2 (target * pct / 100).
Proof. apply toFixed2_comp. field. Qed.




(** ** Statistics aggregator *)

Lemma progress_unfold (bets : list Bet.t) (targetAmount : number) :
  Stats.progress (computeStats bets targetAmount)
  = Math_min 100
      (Math_max 0
         (if js_gt targetAmount 0
          then Math_round (Stats.profit (computeStats bets targetAmount) / targetAmount * 100)
          else 0)).
Proof. reflexivity. Qed.

Lemma clamp_low (raw : number) : raw <= 0 -> Math_min 100 (Math_max 0 raw) = 0.
Proof.
  intros H. unfold Math_max.
  destruct (js_lt 0 raw) eqn:E; js_cases; [lra |]. reflexivity.
Qed.

Lemma clamp_high (raw : number) : 100 <= raw -> Math_min 100 (Math_max 0 raw) = 100.
Proof.
  intros H. unfold Math_max.
  destruct (js_lt 0 raw) eqn:E; js_cases; [| lra].
  unfold Math_min. destruct (js_lt raw 100) eqn:E'; js_cases; [lra | reflexivity].
Qed.

Lemma clamp_range (raw : number) :
  0 <= Math_min 100 (Math_max 0 raw) /\ Math_min 100 (Math_max 0 raw) <= 100.
Proof.
  unfold Math_max. destruct (js_lt 0 raw) eqn:E1; unfold Math_min.
  - destruct (js_lt raw 100) eqn:E2; js_cases; lra.
  - destruct (js_lt 0 100) eqn:E2; js_cases; lra.
Qed.

Lemma Math_round_nonpos (x : number) : x <= 0 -> Math_round x <= 0.
Proof.
  intros H. apply Math_round_mono in H.
  pose proof (Math_round_Z 0) as E. change (inject_Z 0) with 0 in E.
  rewrite E in H. exact H.
Qed.

Lemma Math_round_ge_100 (x : number) : 100 <= x -> 100 <= Math_round x.
Proof.
  intros H. apply Math_round_mono in H.
  pose proof (Math_round_Z 100) as E. change (inject_Z 100) with 100 in E.
  rewrite E in H. exact H.
Qed.

(** C5.  [progress] is [round(profit / target * 100)] clamped to [0, 100]
    for a positive target (the rounding being to an integer within one half
    of [profit / target * 100]) and 0 for a target that is not positive; it
    always lies in [0, 100], is 100 when profit reaches or exceeds a
    positive target, and is 0 on a net loss. *)
Theorem computeStats_progress (bets : list Bet.t) (targetAmount : number) :
  (0 <= Stats.progress (computeStats bets targetAmount) /\
   Stats.progress (computeStats bets targetAmount) <= 100) /\
  (0 < targetAmount ->
   exists rawProgress : number,
     is_integer rawProgress /\
     rawProgress - Stats.profit (computeStats bets targetAmount) / targetAmount * 100
     <= 1 # 2 /\
     Stats.profit (computeStats bets targetAmount) / targetAmount * 100 - rawProgress
     <= 1 # 2 /\
     Stats.progress (computeStats bets targetAmount) == Qmin 100 (Qmax 0 rawProgress)) /\
  (targetAmount <= 0 -> Stats.progress (computeStats bets targetAmount) = 0) /\
  (0 < targetAmount -> targetAmount <= Stats.profit (computeStats bets targetAmount) ->
   Stats.progress (computeStats bets targetAmount) = 100) /\
  (Stats.profit (computeStats bets targetAmount) < 0 ->
   Stats.progress (computeStats bets targetAmount) = 0).
Proof.
  rewrite progress_unfold.
  generalize (Stats.profit (computeStats bets targetAmount)). intros profit.
  split; [apply clamp_range |].
  split; [| split; [| split]].
  - intros Ht. apply js_gt_iff in Ht. rewrite Ht.
    exists (Math_round (profit / targetAmount * 100)).
    split; [eexists; reflexivity |].
    unfold Math_round at 1 2.
    pose proof (Qfloor_le (profit / targetAmount * 100 + (1 # 2))) as Lo.
    pose proof (Qlt_floor (profit / targetAmount * 100 + (1 # 2))) as Hi.
    rewrite inject_Z_plus in Hi. change (inject_Z 1) with 1 in Hi.
    split; [lra |]. split; [lra |].
    rewrite Math_min_spec, Math_max_spec. reflexivity.
  - intros Ht. apply js_lt_false_iff in Ht. unfold js_gt. rewrite Ht.
    apply clamp_low. lra.
  - intros Ht Hp. pose proof Ht as Hgt. apply js_gt_iff in Hgt. rewrite Hgt.
    apply clamp_high, Math_round_ge_100.
    assert (H1 : targetAmount / targetAmount <= profit / targetAmount)
      by (apply Qdiv_le_pos; assumption).
    assert (H2 : targetAmount / targetAmount == 1) by (field; lra).
    rewrite H2 in H1. lra.
  - intros Hp. apply clamp_low.
    destruct (js_gt targetAmount 0) eqn:Ht; [| lra].
    js_cases. apply Math_round_nonpos.
    assert (H1 : profit / targetAmount <= 0 / targetAmount)
      by (apply Qdiv_le_pos; [assumption | lra]).
    assert (H2 : 0 / targetAmount == 0) by (field; lra).
    rewrite H2 in H1. lra.
Qed.

Lemma computeStats_progress_witness :
  Stats.progress (computeStats [richBet] 100) = 100 /\
  Stats.progress (computeStats [lostBet] 100) = 0 /\
  Stats.progress (computeStats [richBet] 0) = 0 /\
  (exists rawProgress : number,
      is_integer rawProgress /\
      rawProgress - Stats.profit (computeStats sample 100) / 100 * 100 <= 1 # 2 /\
      Stats.profit (computeStats sample 100) / 100 * 100 - rawProgress <= 1 # 2 /\
      Stats.progress (computeStats sample 100) == Qmin 100 (Qmax 0 rawProgress)).
Proof.
  split; [| split; [| split]].
  - apply (proj1 (proj2 (proj2 (proj2 (computeStats_progress [richBet] 100)))));
      vm_compute; first [reflexivity | discriminate].
  - apply (proj2 (proj2 (proj2 (proj2 (computeStats_progress [lostBet] 100)))));
      vm_compute; first [reflexivity | discriminate].
  - apply (proj1 (proj2 (proj2 (computeStats_progress [richBet] 0))));
      vm_compute; first [reflexivity | discriminate].
  - apply (proj1 (proj2 (computeStats_progress sample 100))).
    reflexivity.
Defined.

(** ** Debt aggregator *)

Lemma fold_left_sum {A : Type} (g : A -> number) (l : list A) (a : number) :
  fold_left (fun s x => s + g x) l a == a + sumOf g l.
Proof.
  revert a. induction l as [| x l IH]; intros a; simpl.
  - lra.
  - rewrite IH. lra.
Qed.

Lemma fold_left_pointwise {A B : Type} (f g : A -> B -> A) (l : list B) (a : A) :
  (forall s x, f s x = g s x) -> fold_left f l a = fold_left g l a.
Proof.
  intros H. revert a. induction l as [| x l IH]; intros a; simpl.
  - reflexivity.
  - rewrite H. apply IH.
Qed.

Lemma is_pennies_plus (x y : number) : is_pennies x -> is_pennies y -> is_pennies (x + y).
Proof.
  intros [n Hn] [m Hm]. exists (n + m)%Z. rewrite Hn, Hm, inject_Z_plus. field.
Qed.

Lemma is_pennies_minus (x y : number) : is_pennies x -> is_pennies y -> is_pennies (x - y).
Proof.
  intros [n Hn] [m Hm]. exists (n - m)%Z.
  rewrite Hn, Hm. unfold Z.sub. rewrite inject_Z_plus, inject_Z_opp. field.
Qed.

Lemma is_pennies_sumOf {A : Type} (g : A -> number) (l : list A) :
  Forall (fun x => is_pennies (g x)) l -> is_pennies (sumOf g l).
Proof.
  induction 1 as [| x l Hx _ IH]; simpl.
  - exists 0%Z. reflexivity.
  - apply is_pennies_plus; assumption.
Qed.

Lemma sumPayments_all (pays : list Payment.t) :
  sumPayments pays None = toFixed2 (sumOf Payment.amount pays).
Proof.
  unfold sumPayments. apply toFixed2_comp.
  rewrite (fold_left_sum Payment.amount). lra.
Qed.

(** C6.  Legacy mode.  With no cards, for a legacy total and payment
    amounts that are amounts of money (whole pennies), the total debt is the
    legacy total and the remaining debt is
    [max(0, legacyTotal - sum of all payment amounts)]. *)
Theorem legacy_mode (s : App.t) :
  App.cards s = [] ->
  is_pennies (Settings.debtTotal (App.settings s)) ->
  Forall (fun p => is_pennies (Payment.amount p)) (App.payments s) ->
  debtTotalEffective s == Settings.debtTotal (App.settings s) /\
  remainingTotal s
  == Qmax 0 (Settings.debtTotal (App.settings s) - sumOf Payment.amount (App.payments s)).
Proof.
  intros Hc Hd Hp.
  assert (T : debtTotalEffective s = toFixed2 (Settings.debtTotal (App.settings s))).
  { unfold debtTotalEffective, totalDebt. rewrite Hc. reflexivity. }
  assert (R : remainingTotal s
              == Qmax 0 (toFixed2 (Settings.debtTotal (App.settings s)
                                   - toFixed2 (sumOf Payment.amount (App.payments s))))).
  { unfold remainingTotal, paidTotal. rewrite Hc, sumPayments_all. apply Math_max_spec. }
  assert (S : toFixed2 (sumOf Payment.amount (App.payments s))
              == sumOf Payment.amount (App.payments s)).
  { apply toFixed2_of_pennies, is_pennies_sumOf, Hp. }
  split.
  - rewrite T. apply toFixed2_of_pennies, Hd.
  - rewrite R.
    assert (E : toFixed2 (Settings.debtTotal (App.settings s)
                          - toFixed2 (sumOf Payment.amount (App.payments s)))
                == Settings.debtTotal (App.settings s)
                   - sumOf Payment.amount (App.payments s)).
    { rewrite <- S at 2. apply toFixed2_of_pennies, is_pennies_minus;
        [exact Hd | apply toFixed2_pennies]. }
    rewrite E. reflexivity.
Qed.

Lemma legacy_mode_witness :
  debtTotalEffective legacyPaid == 800 /\
  remainingTotal legacyPaid == Qmax 0 (800 - sumOf Payment.amount (App.payments legacyPaid)).
Proof.
  apply (legacy_mode legacyPaid eq_refl).
  - exists 80000%Z. reflexivity.
  - repeat constructor; [exists 12050%Z | exists 7925%Z]; reflexivity.
Defined.

(** A payment that names no card matches no card id. *)
Lemma sumPaymentsToCard_unearmarked (p : Payment.t) (pays : list Payment.t) (cardId : string) :
  not_nullish (Payment.cardId p) = false ->
  sumPaymentsToCard (p :: pays) cardId = sumPaymentsToCard pays cardId.
Proof.
  intros H. unfold sumPaymentsToCard. apply toFixed2_comp. simpl.
  assert (E : cardId_is (Payment.cardId p) cardId = false)
    by (destruct (Payment.cardId p); [reflexivity | reflexivity | discriminate]).
  rewrite E.
  rewrite (fold_left_sum
             (fun q => if cardId_is (Payment.cardId q) cardId then Payment.amount q else 0)
             pays (0 + 0)).
  rewrite (fold_left_sum
             (fun q => if cardId_is (Payment.cardId q) cardId then Payment.amount q else 0)
             pays 0).
  lra.
Qed.

(** C7 as stated fails: with one card of 1000, adding an unearmarked payment
    of 200 leaves the paid figure at 0; it does not rise by 200. *)
Lemma unearmarked_payment_counterexample :
  App.cards oneCard <> [] /\
  not_nullish (Payment.cardId unearmarked) = false /\
  paidShown oneCard == 0 /\
  paidShown (App.setPayments (cons unearmarked) oneCard) == 0 /\
  ~ (paidShown (App.setPayments (cons unearmarked) oneCard)
     == paidShown oneCard + Payment.amount unearmarked).
Proof.
  split; [discriminate |]. split; [reflexivity |].
  split; [reflexivity |]. split; [reflexivity |].
  intros H. vm_compute in H. discriminate H.
Qed.

(** C7, amended.  With at least one card, a payment that names no card
    changes no card's paid sum and no card's remaining balance, and it
    leaves the total debt, the remaining debt and the paid figure
    [totalDebt - remainingDebt] as they were; only the sum of all payments
    grows by (the rounding of) its amount. *)
Theorem unearmarked_payment (s : App.t) (p : Payment.t) :
  App.cards s <> [] ->
  not_nullish (Payment.cardId p) = false ->
  (forall c, In c (App.cards s) ->
     sumPaymentsToCard (App.payments (App.setPayments (cons p) s)) (DebtCard.id c)
     = sumPaymentsToCard (App.payments s) (DebtCard.id c) /\
     Math_max 0 (DebtCard.balance c
                 - sumPaymentsToCard (App.payments (App.setPayments (cons p) s))
                                     (DebtCard.id c))
     = Math_max 0 (DebtCard.balance c - sumPaymentsToCard (App.payments s) (DebtCard.id c))) /\
  debtTotalEffective (App.setPayments (cons p) s) = debtTotalEffective s /\
  remainingTotal (App.setPayments (cons p) s) = remainingTotal s /\
  paidShown (App.setPayments (cons p) s) = paidShown s /\
  paidTotal (App.setPayments (cons p) s)
  = toFixed2 (sumOf Payment.amount (App.payments s) + Payment.amount p).
Proof.
  intros Hc Hp.
  assert (R : remainingTotal (App.setPayments (cons p) s) = remainingTotal s).
  { unfold remainingTotal. simpl. destruct (App.cards s) as [| c cs] eqn:E; [congruence |].
    unfold remainingDebtFromCards. f_equal.
    apply fold_left_pointwise. intros a x.
    rewrite sumPaymentsToCard_unearmarked by exact Hp. reflexivity. }
  split; [| split; [reflexivity | split; [exact R | split]]].
  - intros c _. simpl. rewrite sumPaymentsToCard_unearmarked by exact Hp.
    split; reflexivity.
  - unfold paidShown. rewrite R. reflexivity.
  - unfold paidTotal. rewrite sumPayments_all. apply toFixed2_comp. simpl. lra.
Qed.

Lemma unearmarked_payment_witness :
  paidShown (App.setPayments (cons unearmarked) oneCard) = paidShown oneCard /\
  remainingTotal (App.setPayments (cons unearmarked) oneCard) = remainingTotal oneCard /\
  sumPaymentsToCard (App.payments (App.setPayments (cons unearmarked) oneCard)) "c1"
  = sumPaymentsToCard (App.payments oneCard) "c1".
Proof.
  pose proof (unearmarked_payment oneCard unearmarked) as H.
  assert (Hc : App.cards oneCard <> []) by discriminate.
  specialize (H Hc eq_refl).
  split; [apply H | split; [apply H |]].
  apply (proj1 (proj1 H (DebtCard.mk "c1" "Barclaycard" 1000) (or_introl eq_refl))).
Defined.

(** ** Manual banking *)




Example bankFromBettingNow_example :
  map Payment.amount (App.payments (bankFromBettingNow Null "2025-01-02" "u1" richState))
  = [50] /\
  availableProfitBetting richState = 290.
Proof. split; vm_compute; reflexivity. Qed.

(** ** Settlement time *)

(** [addBet] stamps a settled bet and leaves a pending one unstamped. *)
Lemma newBet_settledAt (form : PartialBet.t) (now uuid : string) (b : Bet.t) :
  newBet form now uuid = Some b ->
  match Bet.status b with
  | Pending => Bet.settledAt b = Null
  | _ => Bet.settledAt b = Value now
  end.
Proof.
  unfold newBet.
  destruct (PartialBet.date form) as [d |]; [| discriminate].
  destruct (PartialBet.description form) as [de |]; [| discriminate].
  destruct (PartialBet.sport form) as [sp |]; [| discriminate].
  destruct (PartialBet.stake form) as [st |]; [| discriminate].
  destruct (PartialBet.oddsDecimal form) as [od |]; [| discriminate].
  destruct (PartialBet.status form) as [status |]; [| discriminate].
  destruct (String.eqb d EmptyString || String.eqb de EmptyString); [discriminate |].
  intros H. injection H as <-. destruct status; reflexivity.
Qed.

(** A patch that moves the status to Won or Lost stamps the bet. *)
Lemma patchBet_settles (b : Bet.t) (patch : PartialBet.t) (updatedNow settledNow : string)
    (st : BetStatus) :
  PartialBet.status patch = Some st -> st <> Pending ->
  Bet.status (patchBet b patch updatedNow settledNow) = st /\
  Bet.settledAt (patchBet b patch updatedNow settledNow) = Value settledNow.
Proof.
  intros H Hst. unfold patchBet. simpl. rewrite H. simpl.
  destruct st; [congruence | |]; split; reflexivity.
Qed.

(** A patch that moves the status back to Pending keeps the old stamp. *)
Lemma patchBet_pending (b : Bet.t) (patch : PartialBet.t) (updatedNow settledNow : string) :
  PartialBet.status patch = Some Pending ->
  Bet.status (patchBet b patch updatedNow settledNow) = Pending /\
  Bet.settledAt (patchBet b patch updatedNow settledNow) = Bet.settledAt b.
Proof.
  intros H. unfold patchBet. simpl. rewrite H. split; reflexivity.
Qed.

(** C9 at the failing input.  Pressing "P" on a bet that was settled as won
    at 10:00 gives a bet whose status is Pending and whose [settledAt] is
    still the 10:00 stamp, not [null]. *)
Theorem updateBet_pending_keeps_settledAt :
  exists b,
    App.bets (updateBet "b1" (PartialBet.ofStatus Pending)
                "2025-01-02T08:00:00.000Z" "2025-01-02T08:00:00.000Z" settledState) = [b] /\
    Bet.status b = Pending /\
    Bet.settledAt b = Value "2025-01-01T10:00:00.000Z" /\
    Bet.settledAt b <> Null.
Proof.
  eexists. split; [reflexivity |]. split; [reflexivity |]. split; [reflexivity |].
  discriminate.
Qed.

(** ** Zero override at creation *)

Lemma newBet_returnOverride (form : PartialBet.t) (now uuid : string) (b : Bet.t) :
  newBet form now uuid = Some b ->
  Bet.returnOverride b
  = match PartialBet.returnOverride form with
    | Value v => if js_eq v 0 then Null else Value v
    | _ => Null
    end.
Proof.
  unfold newBet.
  destruct (PartialBet.date form) as [d |]; [| discriminate].
  destruct (PartialBet.description form) as [de |]; [| discriminate].
  destruct (PartialBet.sport form) as [sp |]; [| discriminate].
  destruct (PartialBet.stake form) as [st |]; [| discriminate].
  destruct (PartialBet.oddsDecimal form) as [od |]; [| discriminate].
  destruct (PartialBet.status form) as [status |]; [| discriminate].
  destruct (String.eqb d EmptyString || String.eqb de EmptyString); [discriminate |].
  intros H. injection H as <-. reflexivity.
Qed.

Lemma saveReturnEditor_zero (parseFloat : string -> option number) (id : string)
    (updatedNow settledNow : string) (s : App.t) :
  EditingReturn.id (App.editingReturn s) = Some id ->
  id <> EmptyString ->
  EditingReturn.value (App.editingReturn s) = "0" ->
  parseFloat "0" = Some 0 ->
  App.bets (saveReturnEditor parseFloat updatedNow settledNow s)
  = map (fun b => if String.eqb (Bet.id b) id
                  then patchBet b (PartialBet.ofReturnOverride (Value 0))
                         updatedNow settledNow
                  else b) (App.bets s).
Proof.
  intros Hid Hne Hv Hp. unfold saveReturnEditor. rewrite Hid, Hv.
  destruct (String.eqb id EmptyString) eqn:E; [apply String.eqb_eq in E; congruence |].
  simpl. unfold cleanNumber. simpl. rewrite Hp. reflexivity.
Qed.

(** C10.  [addBet] stores a form override of exactly 0, of [null] or an
    absent one as [null], so the new bet's return is the computed default;
    [effectiveReturn] itself honours a stored override of 0, and the return
    editor stores one when the text [0] is saved. *)
Theorem zero_override_at_creation :
  (forall s now uuid today,
      zero_or_nullish (PartialBet.returnOverride (App.form s)) ->
      newBet (App.form s) now uuid <> None ->
      exists b,
        App.bets (addBet now uuid today s) = b :: App.bets s /\
        Bet.returnOverride b = Null /\
        effectiveReturn b
        = calcDefaultReturn (Bet.stake b) (Bet.oddsDecimal b) (Bet.status b)) /\
  (forall b, Bet.returnOverride b = Value 0 -> effectiveReturn b = Some 0) /\
  (forall parseFloat id updatedNow settledNow s b,
      EditingReturn.id (App.editingReturn s) = Some id ->
      id <> EmptyString ->
      EditingReturn.value (App.editingReturn s) = "0" ->
      parseFloat "0" = Some 0 ->
      In b (App.bets (saveReturnEditor parseFloat updatedNow settledNow s)) ->
      Bet.id b = id ->
      Bet.returnOverride b = Value 0 /\ effectiveReturn b = Some 0).
Proof.
  split; [| split].
  - intros s now uuid today Hz Hn. unfold addBet.
    destruct (newBet (App.form s) now uuid) as [b |] eqn:E; [| congruence].
    exists b. split; [reflexivity |].
    assert (R : Bet.returnOverride b = Null).
    { rewrite (newBet_returnOverride _ _ _ _ E).
      destruct (PartialBet.returnOverride (App.form s)) as [| | v]; try reflexivity.
      simpl in Hz. apply js_eq_iff in Hz. rewrite Hz. reflexivity. }
    split; [exact R |]. unfold effectiveReturn. rewrite R. reflexivity.
  - intros b H. unfold effectiveReturn. rewrite H. reflexivity.
  - intros parseFloat id u n s b Hid Hne Hv Hp Hin Hb.
    rewrite (saveReturnEditor_zero parseFloat id u n s Hid Hne Hv Hp) in Hin.
    apply in_map_iff in Hin. destruct Hin as [b0 [Hb0 _]].
    destruct (String.eqb (Bet.id b0) id) eqn:E.
    + subst b. unfold effectiveReturn. simpl. split; reflexivity.
    + subst b. apply String.eqb_neq in E. congruence.
Qed.

Lemma zero_override_at_creation_witness :
  (exists b,
      App.bets (addBet "2025-01-02T08:00:00.000Z" "u1" "2025-01-02"
                  (App.setForm (fun _ => zeroOverrideForm) settledState))
      = b :: App.bets (App.setForm (fun _ => zeroOverrideForm) settledState) /\
      Bet.returnOverride b = Null /\
      effectiveReturn b = calcDefaultReturn (Bet.stake b) (Bet.oddsDecimal b) (Bet.status b)) /\
  effectiveReturn (patchBet settledBet (PartialBet.ofReturnOverride (Value 0))
                     "2025-01-02T08:00:00.000Z" "2025-01-02T08:00:00.000Z") = Some 0 /\
  (forall b,
      In b (App.bets (saveReturnEditor parseZero "2025-01-02T08:00:00.000Z"
                        "2025-01-02T08:00:00.000Z" editingZero)) ->
      Bet.id b = "b1" ->
      Bet.returnOverride b = Value 0 /\ effectiveReturn b = Some 0).
Proof.
  split; [| split].
  - apply (proj1 zero_override_at_creation).
    + reflexivity.
    + discriminate.
  - apply (proj1 (proj2 zero_override_at_creation)). reflexivity.
  - intros b. apply (proj2 (proj2 zero_override_at_creation) parseZero "b1").
    + reflexivity.
    + discriminate.
    + reflexivity.
    + reflexivity.
Defined.

(** ** The assertions of [runSelfTests], replayed on the embedding *)

Example selftest_calcDefaultReturn :
  calcDefaultReturn 10 2 Won = Some 20 /\
  calcDefaultReturn 10 2.5 Lost = Some 0 /\
  calcDefaultReturn 10 2 Pending = None.
Proof. repeat split. Qed.

Example selftest_computeStats :
  computeStats sample 100 = Stats.mk 2 1 50 20 20 0 0.
Proof. vm_compute. reflexivity. Qed.

Example selftest_sumPayments :
  sumPayments pays None = 35 /\ sumPayments pays (Some Betting) = 20.
Proof. split; vm_compute; reflexivity. Qed.

Example selftest_cards :
  totalDebt cards 0 = 1500 /\
  sumPaymentsToCard paysToCards "c1" = 200 /\
  remainingDebtFromCards cards paysToCards = 1200.
Proof. repeat split; vm_compute; reflexivity. Qed.

Example run_first_milestone :
  App.bankedMilestones
    (run parseZero printNothing
       [AutoBankEffect "2025-01-02" "u1"; BankNow "2025-01-02" "u2";
        AutoBankEffect "2025-01-02" "u3"] richState) = 2 /\
  map Payment.amount
    (App.payments
       (run parseZero printNothing
          [AutoBankEffect "2025-01-02" "u1"; BankNow "2025-01-02" "u2";
           AutoBankEffect "2025-01-02" "u3"] richState)) = [50; 100].
Proof. split; vm_compute; reflexivity. Qed.

(** ** Re-running the effect *)

Lemma autoBank_none_any_clock (settings : Settings.t) (cs : list DebtCard.t)
    (avail counter : number) (today uuid today' uuid' : string) :
  autoBank settings cs avail counter today uuid = None ->
  autoBank settings cs avail counter today' uuid' = None.
Proof.
  unfold autoBank.
  repeat match goal with
    | |- context [if ?c then _ else _] => destruct c
    end; intros H; try reflexivity; discriminate H.
Qed.

Lemma sumPayments_betting_cons (p : Payment.t) (ps : list Payment.t) :
  Payment.source p = Betting -> 0 <= Payment.amount p ->
  sumPayments ps (Some Betting) <= sumPayments (p :: ps) (Some Betting).
Proof.
  intros Hs Ha. unfold sumPayments. apply toFixed2_mono. simpl. rewrite Hs. simpl.
  rewrite (fold_left_sum
             (fun q => if PaymentSource_eqb (Payment.source q) Betting
                       then Payment.amount q else 0) ps (0 + Payment.amount p)).
  rewrite (fold_left_sum
             (fun q => if PaymentSource_eqb (Payment.source q) Betting
                       then Payment.amount q else 0) ps 0).
  lra.
Qed.

(** Running the effect again right after it ran changes nothing: the
    payment it may have added lowers the available profit, and the counter
    already covers it. *)
Lemma autoBankEffect_idempotent (today uuid today' uuid' : string) (s : App.t) :
  autoBankEffect today' uuid' (autoBankEffect today uuid s) = autoBankEffect today uuid s.
Proof.
  unfold autoBankEffect at 2 3.
  destruct (autoBank (App.settings s) (App.cards s) (availableProfitBetting s)
                     (App.bankedMilestones s) today uuid) as [[p n] |] eqn:E.
  - pose proof (autoBank_fired _ _ _ _ _ _ _ _ E) as [Hlt [Hn [Hsrc [Hpos _]]]].
    set (s' := App.setBankedMilestones n (App.setPayments (cons p) s)).
    assert (Hav : availableProfitBetting s' <= availableProfitBetting s).
    { unfold availableProfitBetting. apply toFixed2_mono.
      assert (B : bankedFromBetting s <= bankedFromBetting s').
      { unfold bankedFromBetting, s'. simpl.
        apply sumPayments_betting_cons; [exact Hsrc | lra]. }
      change (stats s') with (stats s). lra. }
    assert (G : Math_floor (availableProfitBetting s / Settings.targetAmount (App.settings s))
                <= n) by (rewrite Hn; lra).
    pose proof (autoBank_guarded (App.settings s) (App.cards s)
                  (availableProfitBetting s) (availableProfitBetting s') n today' uuid' G Hav)
      as K.
    unfold autoBankEffect.
    change (App.settings s') with (App.settings s).
    change (App.cards s') with (App.cards s).
    change (App.bankedMilestones s') with n.
    rewrite K. reflexivity.
  - unfold autoBankEffect.
    rewrite (autoBank_none_any_clock _ _ _ _ _ _ today' uuid' E). reflexivity.
Qed.

(** * Further properties *)

(** ** Statistics aggregator *)

Lemma stats_unfold (bets : list Bet.t) (t : number) :
  Stats.settledCount (computeStats bets t) = List.length (settledOf bets) /\
  Stats.wonCount (computeStats bets t)
  = List.length (filter (fun b => BetStatus_eqb (Bet.status b) Won) (settledOf bets)) /\
  Stats.totalStaked (computeStats bets t) == sumOf Bet.stake (settledOf bets) /\
  Stats.totalReturns (computeStats bets t)
  == sumOf (fun b => match effectiveReturn b with Some r => r | None => 0 end)
           (settledOf bets) /\
  Stats.profit (computeStats bets t)
  = toFixed2 (sumOf (fun b => match effectiveReturn b with Some r => r | None => 0 end)
                    (settledOf bets)
              - sumOf Bet.stake (settledOf bets)).
Proof.
  assert (A : Stats.totalStaked (computeStats bets t) == sumOf Bet.stake (settledOf bets)).
  { simpl. fold (settledOf bets). rewrite (fold_left_sum Bet.stake). lra. }
  assert (B : Stats.totalReturns (computeStats bets t)
              == sumOf (fun b => match effectiveReturn b with Some r => r | None => 0 end)
                       (settledOf bets)).
  { simpl. fold (settledOf bets).
    rewrite (fold_left_sum
               (fun b => match effectiveReturn b with Some r => r | None => 0 end)).
    lra. }
  repeat split; try reflexivity; try assumption.
  change (Stats.profit (computeStats bets t))
    with (toFixed2 (Stats.totalReturns (computeStats bets t)
                    - Stats.totalStaked (computeStats bets t))).
  apply toFixed2_comp. rewrite A, B. reflexivity.
Qed.

Lemma computeStats_settledOf (bets : list Bet.t) (t : number) :
  computeStats (settledOf bets) t = computeStats bets t.
Proof.
  unfold computeStats. fold (settledOf bets). fold (settledOf (settledOf bets)).
  assert (E : settledOf (settledOf bets) = settledOf bets).
  { unfold settledOf. induction bets as [| b l IH]; simpl; [reflexivity |].
    destruct (negb (BetStatus_eqb (Bet.status b) Pending)) eqn:Eb; simpl.
    - rewrite Eb, IH. reflexivity.
    - exact IH. }
  rewrite E. reflexivity.
Qed.

(** X1.  A pending bet does not count: with a pending bet inserted anywhere
    in the list, [computeStats] returns the same record. *)
Theorem computeStats_ignores_pending (l1 l2 : list Bet.t) (b : Bet.t) (t : number) :
  Bet.status b = Pending ->
  computeStats (l1 ++ b :: l2) t = computeStats (l1 ++ l2) t.
Proof.
  intros Hb.
  rewrite <- (computeStats_settledOf (l1 ++ b :: l2)), <- (computeStats_settledOf (l1 ++ l2)).
  f_equal. unfold settledOf. rewrite !filter_app. simpl. rewrite Hb. reflexivity.
Qed.

Lemma computeStats_ignores_pending_witness :
  computeStats ([richBet] ++ pendingBet :: [lostBet]) 100
  = computeStats ([richBet] ++ [lostBet]) 100.
Proof.
  apply (computeStats_ignores_pending [richBet] [lostBet] pendingBet 100). reflexivity.
Defined.

Lemma of_nat_le (n m : nat) : (n <= m)%nat -> of_nat n <= of_nat m.
Proof. intros H. unfold of_nat. rewrite <- Zle_Qle. lia. Qed.

Lemma of_nat_pos (n : nat) : (0 < n)%nat -> 0 < of_nat n.
Proof.
  intros H. unfold of_nat. change 0 with (inject_Z 0). rewrite <- Zlt_Qlt. lia.
Qed.

(** X2.  The counts are consistent and the hit rate is a percentage:
    [wonCount <= settledCount <= bets.length], [0 <= hitRate <= 100], the hit
    rate is 0 when nothing is settled and 100 when every settled bet is won. *)
Theorem computeStats_counts (bets : list Bet.t) (t : number) :
  (Stats.wonCount (computeStats bets t) <= Stats.settledCount (computeStats bets t))%nat /\
  (Stats.settledCount (computeStats bets t) <= List.length bets)%nat /\
  0 <= Stats.hitRate (computeStats bets t) /\
  Stats.hitRate (computeStats bets t) <= 100 /\
  (Stats.settledCount (computeStats bets t) = O -> Stats.hitRate (computeStats bets t) = 0) /\
  (Stats.settledCount (computeStats bets t) <> O ->
   Stats.wonCount (computeStats bets t) = Stats.settledCount (computeStats bets t) ->
   Stats.hitRate (computeStats bets t) = 100).
Proof.
  assert (W : (Stats.wonCount (computeStats bets t)
               <= Stats.settledCount (computeStats bets t))%nat)
    by (simpl; apply filter_length_le).
  assert (HS : (Stats.settledCount (computeStats bets t) <= List.length bets)%nat)
    by (simpl; apply filter_length_le).
  assert (H : Stats.hitRate (computeStats bets t)
              = match Stats.settledCount (computeStats bets t) with
                | O => 0
                | _ => Math_round (of_nat (Stats.wonCount (computeStats bets t))
                                   / of_nat (Stats.settledCount (computeStats bets t)) * 100)
                end) by reflexivity.
  revert W HS H.
  generalize (Stats.wonCount (computeStats bets t)) as w.
  generalize (Stats.settledCount (computeStats bets t)) as n.
  generalize (Stats.hitRate (computeStats bets t)) as h.
  intros h n w W HS H. split; [exact W |]. split; [exact HS |].
  destruct n as [| n].
  - subst h. repeat split; try lra; try reflexivity. intros C. congruence.
  - assert (Pn : 0 < of_nat (S n)) by (apply of_nat_pos; lia).
    assert (Pw : 0 <= of_nat w).
    { change 0 with (of_nat 0). apply of_nat_le. lia. }
    assert (Le : of_nat w <= of_nat (S n)) by (apply of_nat_le; exact W).
    assert (R0 : 0 / of_nat (S n) <= of_nat w / of_nat (S n)) by (apply Qdiv_le_pos; assumption).
    assert (R1 : of_nat w / of_nat (S n) <= of_nat (S n) / of_nat (S n))
      by (apply Qdiv_le_pos; assumption).
    assert (Z0 : 0 / of_nat (S n) == 0) by (field; lra).
    assert (Z1 : of_nat (S n) / of_nat (S n) == 1) by (field; lra).
    rewrite Z0 in R0. rewrite Z1 in R1.
    pose proof (Math_round_Z 0) as M0. change (inject_Z 0) with 0 in M0.
    pose proof (Math_round_Z 100) as M100. change (inject_Z 100) with 100 in M100.
    assert (Lo : Math_round 0 <= h) by (subst h; apply Math_round_mono; lra).
    assert (Hi : h <= Math_round 100) by (subst h; apply Math_round_mono; lra).
    rewrite M0 in Lo. rewrite M100 in Hi.
    split; [exact Lo |]. split; [exact Hi |]. split; [intros C; discriminate |].
    intros _ Ew. subst w h.
    assert (E : of_nat (S n) / of_nat (S n) * 100 == inject_Z 100).
    { rewrite Z1. reflexivity. }
    unfold Math_round. rewrite (Qfloor_comp _ _ (Qplus_comp _ _ E _ _ (Qeq_refl (1 # 2)))).
    rewrite Qfloor_half. reflexivity.
Qed.

Lemma computeStats_counts_witness :
  Stats.hitRate (computeStats [pendingBet] 100) = 0 /\
  Stats.hitRate (computeStats [richBet; pendingBet] 100) = 100.
Proof.
  split.
  - apply (proj1 (proj2 (proj2 (proj2 (proj2 (computeStats_counts [pendingBet] 100)))))).
    reflexivity.
  - apply (proj2 (proj2 (proj2 (proj2 (proj2 (computeStats_counts [richBet; pendingBet] 100)))))).
    + discriminate.
    + reflexivity.
Defined.

Lemma filter_Permutation {A : Type} (f : A -> bool) (l l' : list A) :
  Permutation l l' -> Permutation (filter f l) (filter f l').
Proof.
  induction 1 as [| x l l' _ IH | x y l | l l' l'' _ IH1 _ IH2]; simpl.
  - constructor.
  - destruct (f x); [constructor |]; exact IH.
  - destruct (f x), (f y); try apply Permutation_refl; apply perm_swap.
  - eapply Permutation_trans; eassumption.
Qed.

Lemma sumOf_Permutation {A : Type} (g : A -> number) (l l' : list A) :
  Permutation l l' -> sumOf g l == sumOf g l'.
Proof.
  induction 1 as [| x l l' _ IH | x y l | l l' l'' _ IH1 _ IH2]; simpl.
  - reflexivity.
  - rewrite IH. reflexivity.
  - lra.
  - rewrite IH1. exact IH2.
Qed.

(** X3.  The aggregate does not depend on the order of the bets: for two
    lists that are permutations of each other the counts and the hit rate
    are equal, and when stakes and return overrides are whole pennies so are
    the profit and the progress.  (The two totals are unrounded running sums
    and are not compared.) *)
Theorem computeStats_order_independent (bets bets' : list Bet.t) (t : number) :
  Permutation bets bets' ->
  (Stats.settledCount (computeStats bets t) = Stats.settledCount (computeStats bets' t) /\
   Stats.wonCount (computeStats bets t) = Stats.wonCount (computeStats bets' t) /\
   Stats.hitRate (computeStats bets t) = Stats.hitRate (computeStats bets' t)) /\
  (Forall (fun b => is_pennies (Bet.stake b) /\
                    forall v, Bet.returnOverride b = Value v -> is_pennies v) bets ->
   Stats.profit (computeStats bets t) = Stats.profit (computeStats bets' t) /\
   Stats.progress (computeStats bets t) = Stats.progress (computeStats bets' t)).
Proof.
  intros P.
  assert (PS : Permutation (settledOf bets) (settledOf bets'))
    by (apply filter_Permutation; exact P).
  destruct (stats_unfold bets t) as [A1 [A2 [_ [_ A5]]]].
  destruct (stats_unfold bets' t) as [B1 [B2 [_ [_ B5]]]].
  assert (C1 : Stats.settledCount (computeStats bets t)
               = Stats.settledCount (computeStats bets' t)).
  { rewrite A1, B1. apply Permutation_length, PS. }
  assert (C2 : Stats.wonCount (computeStats bets t) = Stats.wonCount (computeStats bets' t)).
  { rewrite A2, B2. apply Permutation_length, filter_Permutation, PS. }
  split.
  - split; [exact C1 |]. split; [exact C2 |].
    change (Stats.hitRate (computeStats bets t))
      with (match Stats.settledCount (computeStats bets t) with
            | O => 0
            | _ => Math_round (of_nat (Stats.wonCount (computeStats bets t))
                               / of_nat (Stats.settledCount (computeStats bets t)) * 100)
            end).
    rewrite C1, C2. reflexivity.
  - intros _.
    assert (C5 : Stats.profit (computeStats bets t) = Stats.profit (computeStats bets' t)).
    { rewrite A5, B5. apply toFixed2_comp.
      rewrite (sumOf_Permutation _ _ _ PS), (sumOf_Permutation Bet.stake _ _ PS).
      reflexivity. }
    split; [exact C5 |]. rewrite !progress_unfold, C5. reflexivity.
Qed.

Lemma computeStats_order_independent_witness :
  Stats.hitRate (computeStats [richBet; lostBet] 100)
  = Stats.hitRate (computeStats [lostBet; richBet] 100) /\
  Stats.profit (computeStats [richBet; lostBet] 100)
  = Stats.profit (computeStats [lostBet; richBet] 100) /\
  Stats.progress (computeStats [richBet; lostBet] 100)
  = Stats.progress (computeStats [lostBet; richBet] 100).
Proof.
  pose proof (computeStats_order_independent [richBet; lostBet] [lostBet; richBet] 100
                (perm_swap lostBet richBet [])) as [H1 H2].
  split; [apply H1 |].
  apply H2. repeat constructor; simpl;
    first [exists 1000%Z; reflexivity | discriminate].
Defined.

(** ** Debt aggregator *)

Lemma sumPayments_source (ps : list Payment.t) (src : PaymentSource) :
  sumPayments ps (Some src)
  = toFixed2 (sumOf (fun p => if PaymentSource_eqb (Payment.source p) src
                              then Payment.amount p else 0) ps).
Proof.
  unfold sumPayments. apply toFixed2_comp.
  rewrite (fold_left_sum
             (fun p => if PaymentSource_eqb (Payment.source p) src
                       then Payment.amount p else 0)).
  lra.
Qed.

Lemma sumOf_by_source (ps : list Payment.t) :
  sumOf Payment.amount ps
  == sumOf (fun p => if PaymentSource_eqb (Payment.source p) Betting
                     then Payment.amount p else 0) ps
     + sumOf (fun p => if PaymentSource_eqb (Payment.source p) Trading
                       then Payment.amount p else 0) ps
     + sumOf (fun p => if PaymentSource_eqb (Payment.source p) Savings
                       then Payment.amount p else 0) ps.
Proof.
  induction ps as [| p ps IH]; simpl.
  - reflexivity.
  - rewrite IH. destruct (Payment.source p); simpl; lra.
Qed.

Lemma is_pennies_zero : is_pennies 0.
Proof. exists 0%Z. reflexivity. Qed.

Lemma is_pennies_filtered (ps : list Payment.t) (src : PaymentSource) :
  Forall (fun p => is_pennies (Payment.amount p)) ps ->
  is_pennies (sumOf (fun p => if PaymentSource_eqb (Payment.source p) src
                              then Payment.amount p else 0) ps).
Proof.
  intros H. apply is_pennies_sumOf.
  eapply Forall_impl; [| exact H]. intros p Hp. simpl.
  destruct (PaymentSource_eqb (Payment.source p) src); [exact Hp | apply is_pennies_zero].
Qed.

(** X4.  For whole-penny amounts the three per-source totals add up to the
    overall total: [sumPayments(pays)] is the sum of
    [sumPayments(pays, "Betting")], [sumPayments(pays, "Trading")] and
    [sumPayments(pays, "Savings")]. *)
Theorem sumPayments_partition (ps : list Payment.t) :
  Forall (fun p => is_pennies (Payment.amount p)) ps ->
  sumPayments ps None
  == sumPayments ps (Some Betting) + sumPayments ps (Some Trading)
     + sumPayments ps (Some Savings).
Proof.
  intros H. rewrite sumPayments_all, !sumPayments_source.
  rewrite (toFixed2_of_pennies _ (is_pennies_sumOf _ _ H)).
  rewrite !(toFixed2_of_pennies _ (is_pennies_filtered _ _ H)).
  apply sumOf_by_source.
Qed.

Lemma pays_pennies : Forall (fun p => is_pennies (Payment.amount p)) pays.
Proof.
  repeat constructor; simpl;
    [exists 2000%Z | exists 1000%Z | exists 500%Z]; reflexivity.
Defined.

Lemma sumPayments_partition_witness :
  sumPayments pays None
  == sumPayments pays (Some Betting) + sumPayments pays (Some Trading)
     + sumPayments pays (Some Savings).
Proof. apply (sumPayments_partition pays pays_pennies). Defined.

Lemma balance_or_zero_eq (b : number) : balance_or_zero b == b.
Proof.
  unfold balance_or_zero. destruct (js_eq b 0) eqn:E; js_cases; [symmetry; exact E |].
  reflexivity.
Qed.

Lemma sumOf_ext_eq {A : Type} (g h : A -> number) (l : list A) :
  (forall x, In x l -> g x == h x) -> sumOf g l == sumOf h l.
Proof.
  induction l as [| x l IH]; intros H; simpl.
  - reflexivity.
  - rewrite (H x (or_introl eq_refl)), IH; [reflexivity |].
    intros y Hy. apply H. right. exact Hy.
Qed.

(** X5.  Once there is a card the legacy total is ignored: [totalDebt] is
    the sum of the card balances rounded to two decimals, whatever the
    fallback. *)
Theorem totalDebt_cards (cs : list DebtCard.t) (fallback fallback' : number) :
  cs <> [] ->
  totalDebt cs fallback = toFixed2 (sumOf DebtCard.balance cs) /\
  totalDebt cs fallback = totalDebt cs fallback'.
Proof.
  intros H. destruct cs as [| c cs]; [congruence |].
  split; [| reflexivity].
  unfold totalDebt. apply toFixed2_comp.
  rewrite (fold_left_sum (fun c => balance_or_zero (DebtCard.balance c))).
  rewrite (sumOf_ext_eq (fun c => balance_or_zero (DebtCard.balance c)) DebtCard.balance).
  - lra.
  - intros x _. apply balance_or_zero_eq.
Qed.

Lemma totalDebt_cards_witness :
  totalDebt cards 0 = toFixed2 (sumOf DebtCard.balance cards) /\
  totalDebt cards 0 = totalDebt cards 800.
Proof.
  apply (totalDebt_cards cards 0 800). discriminate.
Defined.

Lemma toFixed2_zero : toFixed2 0 = 0.
Proof. reflexivity. Qed.

Lemma toFixed2_nonneg (x : number) : 0 <= x -> 0 <= toFixed2 x.
Proof. intros H. apply toFixed2_mono in H. rewrite toFixed2_zero in H. exact H. Qed.

Lemma Math_max_0_nonneg (x : number) : 0 <= Math_max 0 x.
Proof. unfold Math_max. destruct (js_lt 0 x) eqn:E; js_cases; lra. Qed.

Lemma Math_max_0_le (x b : number) : 0 <= b -> x <= b -> Math_max 0 x <= b.
Proof. intros Hb Hx. unfold Math_max. destruct (js_lt 0 x); lra. Qed.

Lemma Math_max_0_mono (x y : number) : x <= y -> Math_max 0 x <= Math_max 0 y.
Proof.
  intros H. unfold Math_max.
  destruct (js_lt 0 x) eqn:E1, (js_lt 0 y) eqn:E2; js_cases; lra.
Qed.

Lemma sumOf_nonneg {A : Type} (g : A -> number) (l : list A) :
  (forall x, In x l -> 0 <= g x) -> 0 <= sumOf g l.
Proof.
  induction l as [| x l IH]; intros H; simpl.
  - lra.
  - assert (0 <= g x) by (apply H; left; reflexivity).
    assert (0 <= sumOf g l) by (apply IH; intros y Hy; apply H; right; exact Hy).
    lra.
Qed.

Lemma sumOf_le {A : Type} (g h : A -> number) (l : list A) :
  (forall x, In x l -> g x <= h x) -> sumOf g l <= sumOf h l.
Proof.
  induction l as [| x l IH]; intros H; simpl.
  - lra.
  - assert (g x <= h x) by (apply H; left; reflexivity).
    assert (sumOf g l <= sumOf h l) by (apply IH; intros y Hy; apply H; right; exact Hy).
    lra.
Qed.

Lemma sumPaymentsToCard_sum (ps : list Payment.t) (k : string) :
  sumPaymentsToCard ps k
  = toFixed2 (sumOf (fun p => if cardId_is (Payment.cardId p) k
                              then Payment.amount p else 0) ps).
Proof.
  unfold sumPaymentsToCard. apply toFixed2_comp.
  rewrite (fold_left_sum
             (fun p => if cardId_is (Payment.cardId p) k then Payment.amount p else 0)).
  lra.
Qed.

Lemma remainingDebtFromCards_sum (cs : list DebtCard.t) (ps : list Payment.t) :
  remainingDebtFromCards cs ps
  = toFixed2 (sumOf (fun c => Math_max 0 (DebtCard.balance c
                                          - sumPaymentsToCard ps (DebtCard.id c))) cs).
Proof.
  unfold remainingDebtFromCards. apply toFixed2_comp.
  rewrite (fold_left_sum
             (fun c => Math_max 0 (DebtCard.balance c
                                   - sumPaymentsToCard ps (DebtCard.id c)))).
  lra.
Qed.

Lemma sumPaymentsToCard_nonneg (ps : list Payment.t) (k : string) :
  Forall (fun p => 0 <= Payment.amount p) ps -> 0 <= sumPaymentsToCard ps k.
Proof.
  intros H. rewrite sumPaymentsToCard_sum. apply toFixed2_nonneg, sumOf_nonneg.
  intros p Hp. rewrite Forall_forall in H.
  destruct (cardId_is (Payment.cardId p) k); [apply H, Hp | lra].
Qed.

Lemma sumPaymentsToCard_cons_le (p : Payment.t) (ps : list Payment.t) (k : string) :
  0 <= Payment.amount p -> sumPaymentsToCard ps k <= sumPaymentsToCard (p :: ps) k.
Proof.
  intros H. rewrite !sumPaymentsToCard_sum. apply toFixed2_mono. simpl.
  destruct (cardId_is (Payment.cardId p) k); lra.
Qed.

Lemma sumPaymentsToCard_skip (p : Payment.t) (ps : list Payment.t) (k : string) :
  cardId_is (Payment.cardId p) k = false ->
  sumPaymentsToCard (p :: ps) k = sumPaymentsToCard ps k.
Proof.
  intros H. rewrite !sumPaymentsToCard_sum. apply toFixed2_comp. simpl. rewrite H. lra.
Qed.

Lemma fold_left_pointwise_in {A B : Type} (f g : A -> B -> A) (l : list B) (a : A) :
  (forall s x, In x l -> f s x = g s x) -> fold_left f l a = fold_left g l a.
Proof.
  revert a. induction l as [| x l IH]; intros a H; simpl.
  - reflexivity.
  - rewrite (H a x (or_introl eq_refl)). apply IH.
    intros s y Hy. apply H. right. exact Hy.
Qed.

Lemma debtTotalEffective_rounded (s : App.t) :
  toFixed2 (debtTotalEffective s) = debtTotalEffective s.
Proof.
  unfold debtTotalEffective, totalDebt. destruct (App.cards s); apply toFixed2_idem.
Qed.

Lemma remainingTotal_nonneg (s : App.t) : 0 <= remainingTotal s.
Proof.
  unfold remainingTotal. destruct (App.cards s) as [| c cs] eqn:E.
  - apply Math_max_0_nonneg.
  - rewrite remainingDebtFromCards_sum. apply toFixed2_nonneg, sumOf_nonneg.
    intros x _. apply Math_max_0_nonneg.
Qed.

Lemma Math_min_100_le (x : number) : Math_min 100 x <= 100.
Proof. unfold Math_min. destruct (js_lt x 100) eqn:E; js_cases; lra. Qed.

Lemma Math_round_nonneg (x : number) : 0 <= x -> 0 <= Math_round x.
Proof.
  intros H. apply Math_round_mono in H.
  pose proof (Math_round_Z 0) as E. change (inject_Z 0) with 0 in E.
  rewrite E in H. exact H.
Qed.

Lemma totalDebt_nonempty (cs : list DebtCard.t) (fallback : number) :
  cs <> [] -> totalDebt cs fallback = toFixed2 (sumOf DebtCard.balance cs).
Proof.
  intros H. destruct cs as [| c cs]; [congruence |].
  unfold totalDebt. apply toFixed2_comp.
  rewrite (fold_left_sum (fun c => balance_or_zero (DebtCard.balance c))).
  rewrite (sumOf_ext_eq (fun c => balance_or_zero (DebtCard.balance c)) DebtCard.balance).
  - lra.
  - intros x _. apply balance_or_zero_eq.
Qed.

(** X6.  The debt overview stays in range.  The remaining debt is never
    negative and the progress never exceeds 100.  When no balance, payment
    amount or legacy total is negative, the remaining debt is at most the
    total, the paid figure lies between 0 and the total, and the progress is
    at least 0. *)
Theorem debt_overview_bounds (s : App.t) :
  (0 <= remainingTotal s /\ debtProgress s <= 100) /\
  (Forall (fun c => 0 <= DebtCard.balance c) (App.cards s) ->
   Forall (fun p => 0 <= Payment.amount p) (App.payments s) ->
   0 <= Settings.debtTotal (App.settings s) ->
   remainingTotal s <= debtTotalEffective s /\
   0 <= paidShown s /\ paidShown s <= debtTotalEffective s /\
   0 <= debtProgress s).
Proof.
  split.
  - split; [apply remainingTotal_nonneg |].
    unfold debtProgress. destruct (js_gt (debtTotalEffective s) 0); [| lra].
    apply Math_min_100_le.
  - intros Hc Hp Hd.
    assert (T0 : 0 <= debtTotalEffective s).
    { unfold debtTotalEffective, totalDebt. destruct (App.cards s) as [| c cs] eqn:E.
      - apply toFixed2_nonneg, Hd.
      - change (0 <= totalDebt (c :: cs) (Settings.debtTotal (App.settings s))).
        rewrite totalDebt_nonempty by discriminate.
        apply toFixed2_nonneg, sumOf_nonneg. intros x Hx.
        rewrite Forall_forall in Hc. apply Hc, Hx. }
    assert (R : remainingTotal s <= debtTotalEffective s).
    { unfold remainingTotal, debtTotalEffective.
      destruct (App.cards s) as [| c cs] eqn:E.
      - apply Math_max_0_le; [apply toFixed2_nonneg, Hd |].
        unfold totalDebt. apply toFixed2_mono.
        assert (0 <= paidTotal s).
        { unfold paidTotal. rewrite sumPayments_all. apply toFixed2_nonneg, sumOf_nonneg.
          intros p Hin. rewrite Forall_forall in Hp. apply Hp, Hin. }
        lra.
      - rewrite remainingDebtFromCards_sum.
        rewrite totalDebt_nonempty by discriminate.
        apply toFixed2_mono, sumOf_le. intros x Hx.
        rewrite Forall_forall in Hc. pose proof (Hc x Hx) as Hb.
        pose proof (sumPaymentsToCard_nonneg (App.payments s) (DebtCard.id x) Hp).
        apply Math_max_0_le; lra. }
    assert (P0 : 0 <= paidShown s) by (unfold paidShown; apply toFixed2_nonneg; lra).
    split; [exact R |]. split; [exact P0 |]. split.
    + unfold paidShown. rewrite <- (debtTotalEffective_rounded s) at 2.
      apply toFixed2_mono. pose proof (remainingTotal_nonneg s). lra.
    + unfold debtProgress. destruct (js_gt (debtTotalEffective s) 0) eqn:G; [| lra].
      js_cases.
      assert (Q : 0 <= Math_round (paidShown s / debtTotalEffective s * 100)).
      { apply Math_round_nonneg.
        assert (0 / debtTotalEffective s <= paidShown s / debtTotalEffective s)
          by (apply Qdiv_le_pos; assumption).
        assert (0 / debtTotalEffective s == 0) by (field; lra).
        lra. }
      unfold Math_min. destruct (js_lt (Math_round _) 100); lra.
Qed.

Lemma debt_overview_bounds_witness :
  remainingTotal cardsState <= debtTotalEffective cardsState /\
  0 <= paidShown cardsState /\ paidShown cardsState <= debtTotalEffective cardsState /\
  0 <= debtProgress cardsState.
Proof.
  apply (proj2 (debt_overview_bounds cardsState)).
  - repeat constructor; simpl; vm_compute; discriminate.
  - repeat constructor; simpl; vm_compute; discriminate.
  - vm_compute. discriminate.
Defined.

Lemma remainingTotal_same_sums (s : App.t) (p : Payment.t) :
  App.cards s <> [] ->
  (forall c, In c (App.cards s) ->
     Math_max 0 (DebtCard.balance c - sumPaymentsToCard (p :: App.payments s) (DebtCard.id c))
     = Math_max 0 (DebtCard.balance c - sumPaymentsToCard (App.payments s) (DebtCard.id c))) ->
  remainingTotal (App.setPayments (cons p) s) = remainingTotal s.
Proof.
  intros Hc H. unfold remainingTotal. simpl.
  destruct (App.cards s) as [| c cs] eqn:E; [congruence |].
  unfold remainingDebtFromCards. f_equal.
  apply fold_left_pointwise_in. intros a x Hx. rewrite (H x Hx). reflexivity.
Qed.

(** X7.  A payment whose card id matches none of the existing cards (for
    instance the id of a card that was removed) is ignored by the card
    figures: remaining debt, paid figure and progress are unchanged. *)
Theorem orphan_payment_ignored (s : App.t) (p : Payment.t) :
  App.cards s <> [] ->
  (forall c, In c (App.cards s) -> cardId_is (Payment.cardId p) (DebtCard.id c) = false) ->
  remainingTotal (App.setPayments (cons p) s) = remainingTotal s /\
  paidShown (App.setPayments (cons p) s) = paidShown s /\
  debtProgress (App.setPayments (cons p) s) = debtProgress s.
Proof.
  intros Hc H.
  assert (R : remainingTotal (App.setPayments (cons p) s) = remainingTotal s).
  { apply remainingTotal_same_sums; [exact Hc |].
    intros c Hin. rewrite (sumPaymentsToCard_skip _ _ _ (H c Hin)). reflexivity. }
  assert (P : paidShown (App.setPayments (cons p) s) = paidShown s).
  { unfold paidShown. rewrite R. reflexivity. }
  split; [exact R |]. split; [exact P |].
  unfold debtProgress. rewrite P. reflexivity.
Qed.

Lemma orphan_payment_ignored_witness :
  remainingTotal (App.setPayments (cons orphanPayment) cardsState) = remainingTotal cardsState /\
  paidShown (App.setPayments (cons orphanPayment) cardsState) = paidShown cardsState /\
  debtProgress (App.setPayments (cons orphanPayment) cardsState) = debtProgress cardsState.
Proof.
  apply (orphan_payment_ignored cardsState orphanPayment).
  - discriminate.
  - intros c [<- | [<- | []]]; reflexivity.
Defined.

(** X8.  Over-payment does not roll over: once the payments to a card
    cover its balance, a further non-negative payment to that card leaves
    the remaining debt as it is. *)
Theorem overpayment_does_not_roll_over (s : App.t) (p : Payment.t) (k : string) :
  App.cards s <> [] ->
  Payment.cardId p = Value k ->
  0 <= Payment.amount p ->
  (forall c, In c (App.cards s) -> DebtCard.id c = k ->
             DebtCard.balance c <= sumPaymentsToCard (App.payments s) k) ->
  remainingTotal (App.setPayments (cons p) s) = remainingTotal s /\
  paidShown (App.setPayments (cons p) s) = paidShown s.
Proof.
  intros Hc Hk Ha Hcov.
  assert (R : remainingTotal (App.setPayments (cons p) s) = remainingTotal s).
  { apply remainingTotal_same_sums; [exact Hc |].
    intros c Hin. destruct (String.eqb k (DebtCard.id c)) eqn:E.
    - apply String.eqb_eq in E. subst k.
      pose proof (Hcov c Hin eq_refl) as Hb.
      pose proof (sumPaymentsToCard_cons_le p (App.payments s) (DebtCard.id c) Ha) as Hm.
      unfold Math_max.
      destruct (js_lt 0 (DebtCard.balance c
                         - sumPaymentsToCard (p :: App.payments s) (DebtCard.id c))) eqn:E1;
        destruct (js_lt 0 (DebtCard.balance c
                           - sumPaymentsToCard (App.payments s) (DebtCard.id c))) eqn:E2;
        js_cases; try reflexivity; lra.
    - rewrite sumPaymentsToCard_skip; [reflexivity |].
      rewrite Hk. simpl. exact E. }
  split; [exact R |]. unfold paidShown. rewrite R. reflexivity.
Qed.

Lemma overpayment_does_not_roll_over_witness :
  remainingTotal (App.setPayments (cons moreToC1) overpaidState) = remainingTotal overpaidState /\
  paidShown (App.setPayments (cons moreToC1) overpaidState) = paidShown overpaidState.
Proof.
  apply (overpayment_does_not_roll_over overpaidState moreToC1 "c1").
  - discriminate.
  - reflexivity.
  - vm_compute. discriminate.
  - intros c [<- | [<- | []]] E; [vm_compute; discriminate | discriminate E].
Defined.

(** X9.  A payment of a non-negative amount never raises the remaining
    debt and never lowers the paid figure, with cards or in legacy mode; the
    total debt does not depend on payments. *)
Theorem payment_never_raises_remaining (s : App.t) (p : Payment.t) :
  0 <= Payment.amount p ->
  debtTotalEffective (App.setPayments (cons p) s) = debtTotalEffective s /\
  remainingTotal (App.setPayments (cons p) s) <= remainingTotal s /\
  paidShown s <= paidShown (App.setPayments (cons p) s).
Proof.
  intros Ha.
  assert (R : remainingTotal (App.setPayments (cons p) s) <= remainingTotal s).
  { unfold remainingTotal. simpl. destruct (App.cards s) as [| c cs] eqn:E.
    - apply Math_max_0_mono, toFixed2_mono.
      assert (paidTotal s <= paidTotal (App.setPayments (cons p) s)).
      { unfold paidTotal. rewrite !sumPayments_all. apply toFixed2_mono. simpl. lra. }
      lra.
    - rewrite !remainingDebtFromCards_sum. apply toFixed2_mono, sumOf_le.
      intros x _. apply Math_max_0_mono.
      pose proof (sumPaymentsToCard_cons_le p (App.payments s) (DebtCard.id x) Ha). lra. }
  split; [reflexivity |]. split; [exact R |].
  unfold paidShown. apply toFixed2_mono.
  change (debtTotalEffective (App.setPayments (cons p) s)) with (debtTotalEffective s). lra.
Qed.

Lemma payment_never_raises_remaining_witness :
  remainingTotal (App.setPayments (cons moreToC1) cardsState) <= remainingTotal cardsState /\
  paidShown cardsState <= paidShown (App.setPayments (cons moreToC1) cardsState).
Proof.
  apply (payment_never_raises_remaining cardsState moreToC1). vm_compute. discriminate.
Defined.

(** ** Challenge progress *)

(** X10.  [runProgress] is a percentage: it lies in [0, 100], is 0 when the
    run target is not above the run start, 100 once the bankroll has reached
    the target and 0 while the bankroll is at or below the start. *)
Theorem runProgress_bounds (s : App.t) :
  (0 <= runProgress s /\ runProgress s <= 100) /\
  (Settings.runTargetStake (App.settings s) <= Settings.runStartStake (App.settings s) ->
   runProgress s = 0) /\
  (Settings.runStartStake (App.settings s) < Settings.runTargetStake (App.settings s) ->
   Settings.runTargetStake (App.settings s) <= currentBankroll s ->
   runProgress s = 100) /\
  (Settings.runStartStake (App.settings s) < Settings.runTargetStake (App.settings s) ->
   currentBankroll s <= Settings.runStartStake (App.settings s) ->
   runProgress s = 0).
Proof.
  unfold runProgress.
  generalize (currentBankroll s) as bank.
  generalize (Settings.runStartStake (App.settings s)) as a.
  generalize (Settings.runTargetStake (App.settings s)) as b.
  intros b a bank. split; [| split; [| split]].
  - destruct (js_le (b - a) 0); [lra | apply clamp_range].
  - intros H. destruct (js_le (b - a) 0) eqn:E; js_cases; [reflexivity | lra].
  - intros H Hb. destruct (js_le (b - a) 0) eqn:E; js_cases; [lra |].
    apply clamp_high, Math_round_ge_100.
    assert (H1 : (b - a) / (b - a) <= (bank - a) / (b - a)) by (apply Qdiv_le_pos; lra).
    assert (H2 : (b - a) / (b - a) == 1) by (field; lra).
    lra.
  - intros H Hb. destruct (js_le (b - a) 0) eqn:E; js_cases; [reflexivity |].
    apply clamp_low, Math_round_nonpos.
    assert (H1 : (bank - a) / (b - a) <= 0 / (b - a)) by (apply Qdiv_le_pos; lra).
    assert (H2 : 0 / (b - a) == 0) by (field; lra).
    lra.
Qed.

Lemma runProgress_bounds_witness :
  runProgress richState = 100 /\
  runProgress (initialState "2025-01-01") = 0 /\
  runProgress (App.setSettings (Settings.setRunTargetStake 5) richState) = 0.
Proof.
  split; [| split].
  - apply (proj1 (proj2 (proj2 (runProgress_bounds richState)))); vm_compute;
      first [reflexivity | discriminate].
  - apply (proj2 (proj2 (proj2 (runProgress_bounds (initialState "2025-01-01")))));
      vm_compute; first [reflexivity | discriminate].
  - apply (proj1 (proj2 (runProgress_bounds
                           (App.setSettings (Settings.setRunTargetStake 5) richState))));
      vm_compute; discriminate.
Defined.

(** ** Invariants of the state machine *)

Lemma payment_ok_rounded (x : number) : 0 <= x -> is_pennies (toFixed2 x) /\ 0 <= toFixed2 x.
Proof. intros H. split; [apply toFixed2_pennies | apply toFixed2_nonneg, H]. Qed.

Lemma bankPayment_payments_ok (amount : number) (source : PaymentSource)
    (note : option string) (cardId : nullable string) (today uuid : string) (s : App.t) :
  Forall payment_ok (App.payments s) ->
  Forall payment_ok (App.payments (bankPayment amount source note cardId today uuid s)).
Proof.
  intros H. unfold bankPayment. destruct (js_le amount 0) eqn:E; [exact H |].
  js_cases. simpl. constructor; [| exact H].
  unfold payment_ok. simpl. apply payment_ok_rounded. lra.
Qed.

(** X11.  Every payment the application records is a non-negative whole
    number of pennies: if that holds of the stored payments it holds after
    every handler and after the auto-bank effect, hence along every run. *)
Theorem payments_stay_whole_pennies (parseFloat : string -> option number)
    (numberToString : number -> string) (acts : list Action) (s : App.t) :
  Forall payment_ok (App.payments s) ->
  Forall payment_ok (App.payments (run parseFloat numberToString acts s)).
Proof.
  revert s. unfold run. induction acts as [| a acts IH]; intros s H; simpl; [exact H |].
  apply IH. clear IH.
  destruct a; simpl; try exact H.
  - unfold autoBankEffect.
    destruct (autoBank (App.settings s) (App.cards s) (availableProfitBetting s)
                       (App.bankedMilestones s) today uuid) as [[p n] |] eqn:E; [| exact H].
    pose proof (autoBank_fired _ _ _ _ _ _ _ _ E) as [_ [_ [_ [Hpos Ham]]]].
    simpl. constructor; [| exact H]. split; [| lra].
    rewrite Ham. apply toFixed2_pennies.
  - unfold addBet. destruct (newBet (App.form s) now uuid); exact H.
  - unfold saveReturnEditor.
    destruct (EditingReturn.id (App.editingReturn s)) as [id |]; [| exact H].
    destruct (String.eqb id EmptyString); exact H.
  - unfold quickBankClick.
    destruct (PaymentSource_eqb (App.qSource s) Betting
              && js_gt (cleanNumber parseFloat (App.qAmount s)) (availableProfitBetting s));
      [exact H |].
    simpl. apply bankPayment_payments_ok, H.
  - unfold bankNowClick, bankFromBettingNow.
    repeat match goal with |- context [if ?c then _ else _] => destruct c end;
      try exact H; apply bankPayment_payments_ok, H.
  - unfold removePayment. simpl. apply Forall_forall. intros p Hp.
    apply filter_In in Hp. rewrite Forall_forall in H. apply H, Hp.
  - unfold addCardClick.
    destruct (String.eqb name EmptyString || js_le (cleanNumber parseFloat bal) 0); exact H.
Qed.

Lemma payments_stay_whole_pennies_witness :
  Forall payment_ok
    (App.payments
       (run parseZero printNothing
          [AutoBankEffect "2025-01-02" "u1"; BankNow "2025-01-02" "u2"] richState)).
Proof.
  apply (payments_stay_whole_pennies parseZero printNothing
           [AutoBankEffect "2025-01-02" "u1"; BankNow "2025-01-02" "u2"] richState).
  constructor.
Defined.

Lemma is_integer_floor (x : number) : is_integer (Math_floor x).
Proof. exists (Qfloor x). reflexivity. Qed.

(** X12.  The milestone counter stays a whole number: if it is one in the
    stored state, it is one after every run, and then every automatic
    payment is exactly the per-milestone amount ([target * percent / 100]
    rounded to whole pennies) times the number of newly crossed milestones,
    with nothing lost to the second rounding. *)
Theorem counter_stays_integer (parseFloat : string -> option number)
    (numberToString : number -> string) :
  (forall acts s,
      is_integer (App.bankedMilestones s) ->
      is_integer (App.bankedMilestones (run parseFloat numberToString acts s))) /\
  (forall settings cs avail counter today uuid p n,
      is_integer counter ->
      autoBank settings cs avail counter today uuid = Some (p, n) ->
      exists perMilestone : number,
        (is_pennies perMilestone /\
         perMilestone - Settings.targetAmount settings
                        * Settings.bankPercentOnTarget settings / 100 <= 1 # 200 /\
         Settings.targetAmount settings * Settings.bankPercentOnTarget settings / 100
         - perMilestone <= 1 # 200) /\
        is_integer (n - counter) /\
        Payment.amount p == perMilestone * (n - counter)).
Proof.
  split.
  - intros acts. unfold run. induction acts as [| a acts IH]; intros s H; simpl; [exact H |].
    apply IH. pose proof (step_counter parseFloat numberToString a s) as K.
    destruct a; try (rewrite K; exact H).
    destruct K as [K | [_ K]]; rewrite K; [exact H | apply is_integer_floor].
  - intros settings cs avail counter today uuid p n [c Hc] E.
    pose proof (autoBank_fired _ _ _ _ _ _ _ _ E) as [_ [Hn [_ [_ Ham]]]].
    exists (toFixed2 (Settings.targetAmount settings
                      * Settings.bankPercentOnTarget settings / 100)).
    split; [split; [apply toFixed2_pennies | apply toFixed2_near] |].
    assert (I : n - counter
                == inject_Z (Qfloor (avail / Settings.targetAmount settings) - c)).
    { rewrite Hn, Hc. unfold Math_floor, Z.sub. rewrite inject_Z_plus, inject_Z_opp.
      reflexivity. }
    split; [eexists; exact I |].
    rewrite Ham, perMilestone_formula. apply toFixed2_of_pennies.
    destruct (toFixed2_pennies (Settings.targetAmount settings
                                * Settings.bankPercentOnTarget settings / 100)) as [m Hm].
    exists (m * (Qfloor (avail / Settings.targetAmount settings) - c))%Z.
    rewrite Hm, I, inject_Z_mult. field.
Qed.

Lemma counter_stays_integer_witness :
  is_integer
    (App.bankedMilestones
       (run parseZero printNothing [AutoBankEffect "2025-01-02" "u1"] richState)) /\
  (exists perMilestone : number,
      (is_pennies perMilestone /\
       perMilestone - 100 * 50 / 100 <= 1 # 200 /\
       100 * 50 / 100 - perMilestone <= 1 # 200) /\
      is_integer (2 - 0) /\
      Payment.amount (Payment.mk "u1" "2025-01-02" 100 Betting (Some "Auto bank on target") Null)
      == perMilestone * (2 - 0)).
Proof.
  split.
  - apply (proj1 (counter_stays_integer parseZero printNothing)).
    exists 0%Z. reflexivity.
  - apply (proj2 (counter_stays_integer parseZero printNothing)
             DEFAULTS [] 250 0 "2025-01-02" "u1"
             (Payment.mk "u1" "2025-01-02" 100 Betting (Some "Auto bank on target") Null) 2).
    + exists 0%Z. reflexivity.
    + reflexivity.
Defined.

(** ** Available profit and banking *)

Lemma filter_fresh {A : Type} (f : A -> bool) (l : list A) :
  Forall (fun x => f x = true) l -> filter f l = l.
Proof.
  induction 1 as [| x l Hx _ IH]; simpl; [reflexivity |]. rewrite Hx, IH. reflexivity.
Qed.

Lemma app_eta (s : App.t) :
  App.mk (App.bets s) (App.settings s) (App.payments s) (App.bankedMilestones s)
    (App.cards s) (App.ui s) (App.form s) (App.editingReturn s) (App.qAmount s)
    (App.qSource s) (App.qCard s) (App.qNote s) = s.
Proof. destruct s. reflexivity. Qed.

Lemma availableProfitBetting_ext (s s' : App.t) :
  App.bets s = App.bets s' -> App.settings s = App.settings s' ->
  App.payments s = App.payments s' ->
  availableProfitBetting s = availableProfitBetting s'.
Proof.
  unfold availableProfitBetting, stats, bankedFromBetting. intros -> -> ->. reflexivity.
Qed.

Lemma autoBank_payment_id (settings : Settings.t) (cs : list DebtCard.t)
    (avail counter : number) (today uuid : string) (p : Payment.t) (n : number) :
  autoBank settings cs avail counter today uuid = Some (p, n) -> Payment.id p = uuid.
Proof.
  unfold autoBank.
  repeat match goal with |- context [if ?c then _ else _] => destruct c end;
    intros E; try discriminate E. injection E as <- _. reflexivity.
Qed.

(** X13.  Deleting a payment does not un-fire its milestone.  When the id
    handed to the effect is fresh, running the effect, removing the payment
    with that id and running the effect again gives back the stored payments
    and fires nothing: the counter, not the payment list, records what has
    been banked. *)
Theorem deleting_auto_payment_does_not_refire (today uuid today' uuid' : string) (s : App.t) :
  Forall (fun p => negb (String.eqb (Payment.id p) uuid) = true) (App.payments s) ->
  App.payments (removePayment uuid (autoBankEffect today uuid s)) = App.payments s /\
  App.bankedMilestones (removePayment uuid (autoBankEffect today uuid s))
  = App.bankedMilestones (autoBankEffect today uuid s) /\
  autoBankEffect today' uuid' (removePayment uuid (autoBankEffect today uuid s))
  = removePayment uuid (autoBankEffect today uuid s).
Proof.
  intros Hf.
  destruct (autoBank (App.settings s) (App.cards s) (availableProfitBetting s)
                     (App.bankedMilestones s) today uuid) as [[p n] |] eqn:E.
  - assert (Ef : autoBankEffect today uuid s
                 = App.setBankedMilestones n (App.setPayments (cons p) s))
      by (unfold autoBankEffect; rewrite E; reflexivity).
    rewrite Ef.
    pose proof (autoBank_payment_id _ _ _ _ _ _ _ _ E) as Hid.
    pose proof (autoBank_fired _ _ _ _ _ _ _ _ E) as [_ [Hn _]].
    set (s2 := removePayment uuid (App.setBankedMilestones n (App.setPayments (cons p) s))).
    assert (P : App.payments s2 = App.payments s).
    { change (App.payments s2)
        with (filter (fun q => negb (String.eqb (Payment.id q) uuid)) (p :: App.payments s)).
      cbn [filter]. rewrite Hid, String.eqb_refl. cbn [negb]. apply filter_fresh, Hf. }
    split; [exact P |]. split; [reflexivity |].
    unfold autoBankEffect.
    rewrite (availableProfitBetting_ext s2 s eq_refl eq_refl P).
    change (App.settings s2) with (App.settings s).
    change (App.cards s2) with (App.cards s).
    change (App.bankedMilestones s2) with n.
    rewrite (autoBank_guarded (App.settings s) (App.cards s) (availableProfitBetting s)
               (availableProfitBetting s) n today' uuid');
      [reflexivity | rewrite Hn; apply Qle_refl | apply Qle_refl].
  - assert (Ef : autoBankEffect today uuid s = s)
      by (unfold autoBankEffect; rewrite E; reflexivity).
    rewrite Ef.
    set (s2 := removePayment uuid s).
    assert (P : App.payments s2 = App.payments s).
    { change (App.payments s2)
        with (filter (fun q => negb (String.eqb (Payment.id q) uuid)) (App.payments s)).
      apply filter_fresh, Hf. }
    split; [exact P |]. split; [reflexivity |].
    unfold autoBankEffect.
    rewrite (availableProfitBetting_ext s2 s eq_refl eq_refl P).
    change (App.settings s2) with (App.settings s).
    change (App.cards s2) with (App.cards s).
    change (App.bankedMilestones s2) with (App.bankedMilestones s).
    rewrite (autoBank_none_any_clock _ _ _ _ _ _ today' uuid' E). reflexivity.
Qed.

Lemma deleting_auto_payment_does_not_refire_witness :
  App.payments (removePayment "u1" (autoBankEffect "2025-01-02" "u1" richState))
  = App.payments richState /\
  App.bankedMilestones (removePayment "u1" (autoBankEffect "2025-01-02" "u1" richState))
  = App.bankedMilestones (autoBankEffect "2025-01-02" "u1" richState) /\
  autoBankEffect "2025-01-03" "u2"
    (removePayment "u1" (autoBankEffect "2025-01-02" "u1" richState))
  = removePayment "u1" (autoBankEffect "2025-01-02" "u1" richState).
Proof.
  apply (deleting_auto_payment_does_not_refire "2025-01-02" "u1" "2025-01-03" "u2" richState).
  constructor.
Defined.

Lemma availableProfitBetting_pennies (s : App.t) :
  Forall (fun p => is_pennies (Payment.amount p)) (App.payments s) ->
  availableProfitBetting s == Stats.profit (stats s) - bankedFromBetting s /\
  bankedFromBetting s
  == sumOf (fun p => if PaymentSource_eqb (Payment.source p) Betting
                     then Payment.amount p else 0) (App.payments s).
Proof.
  intros H.
  assert (B : bankedFromBetting s
              == sumOf (fun p => if PaymentSource_eqb (Payment.source p) Betting
                                 then Payment.amount p else 0) (App.payments s)).
  { unfold bankedFromBetting. rewrite sumPayments_source.
    apply toFixed2_of_pennies, is_pennies_filtered, H. }
  split; [| exact B].
  unfold availableProfitBetting. apply toFixed2_of_pennies, is_pennies_minus.
  - destruct (stats_unfold (App.bets s) (Settings.targetAmount (App.settings s)))
      as [_ [_ [_ [_ E]]]].
    unfold stats. rewrite E. apply toFixed2_pennies.
  - unfold bankedFromBetting. rewrite sumPayments_source. apply toFixed2_pennies.
Qed.

Lemma betting_payment_lowers_available_aux (s : App.t) (p : Payment.t) :
  Forall (fun q => is_pennies (Payment.amount q)) (App.payments s) ->
  is_pennies (Payment.amount p) ->
  Payment.source p = Betting ->
  availableProfitBetting (App.setPayments (cons p) s)
  == availableProfitBetting s - Payment.amount p.
Proof.
  intros H Hp Hs.
  destruct (availableProfitBetting_pennies s H) as [A B].
  assert (H' : Forall (fun q => is_pennies (Payment.amount q))
                      (App.payments (App.setPayments (cons p) s)))
    by (simpl; constructor; assumption).
  destruct (availableProfitBetting_pennies _ H') as [A' B'].
  rewrite A', B', A, B. change (stats (App.setPayments (cons p) s)) with (stats s).
  simpl. rewrite Hs. simpl. lra.
Qed.

(** X14.  With whole-penny amounts, a betting payment raises the banked
    betting total by exactly its amount and lowers the available betting
    profit by the same amount. *)
Theorem betting_payment_lowers_available (s : App.t) (p : Payment.t) :
  Forall (fun q => is_pennies (Payment.amount q)) (App.payments s) ->
  is_pennies (Payment.amount p) ->
  Payment.source p = Betting ->
  bankedFromBetting (App.setPayments (cons p) s) == bankedFromBetting s + Payment.amount p /\
  availableProfitBetting (App.setPayments (cons p) s)
  == availableProfitBetting s - Payment.amount p.
Proof.
  intros H Hp Hs.
  destruct (availableProfitBetting_pennies s H) as [A B].
  assert (H' : Forall (fun q => is_pennies (Payment.amount q))
                      (App.payments (App.setPayments (cons p) s)))
    by (simpl; constructor; assumption).
  destruct (availableProfitBetting_pennies _ H') as [A' B'].
  assert (E : bankedFromBetting (App.setPayments (cons p) s)
              == bankedFromBetting s + Payment.amount p).
  { rewrite B', B. simpl. rewrite Hs. simpl. lra. }
  split; [exact E |].
  rewrite A', A, E. change (stats (App.setPayments (cons p) s)) with (stats s). lra.
Qed.

Lemma betting_payment_lowers_available_witness :
  bankedFromBetting (App.setPayments (cons bettingFifty) richState)
  == bankedFromBetting richState + 50 /\
  availableProfitBetting (App.setPayments (cons bettingFifty) richState)
  == availableProfitBetting richState - 50.
Proof.
  apply (betting_payment_lowers_available richState bettingFifty).
  - constructor.
  - exists 5000%Z. reflexivity.
  - reflexivity.
Defined.

(** X15.  A payment from trading or savings does not touch the available
    betting profit, so it cannot make the auto-bank effect fire or keep it
    from firing. *)
Theorem other_sources_leave_available (s : App.t) (p : Payment.t) (today uuid : string) :
  Payment.source p <> Betting ->
  availableProfitBetting (App.setPayments (cons p) s) = availableProfitBetting s /\
  autoBank (App.settings (App.setPayments (cons p) s)) (App.cards (App.setPayments (cons p) s))
           (availableProfitBetting (App.setPayments (cons p) s))
           (App.bankedMilestones (App.setPayments (cons p) s)) today uuid
  = autoBank (App.settings s) (App.cards s) (availableProfitBetting s)
             (App.bankedMilestones s) today uuid.
Proof.
  intros Hs.
  assert (A : availableProfitBetting (App.setPayments (cons p) s) = availableProfitBetting s).
  { unfold availableProfitBetting, bankedFromBetting.
    change (stats (App.setPayments (cons p) s)) with (stats s).
    apply toFixed2_comp. rewrite !sumPayments_source. simpl.
    destruct (Payment.source p); [congruence | |]; simpl;
      match goal with |- _ - toFixed2 ?a == _ - toFixed2 ?b =>
        rewrite (toFixed2_comp a b) by lra end; reflexivity. }
  split; [exact A |]. rewrite A. reflexivity.
Qed.

Lemma other_sources_leave_available_witness :
  availableProfitBetting (App.setPayments (cons savingsForty) richState)
  = availableProfitBetting richState.
Proof.
  apply (other_sources_leave_available richState savingsForty "2025-01-03" "u3").
  discriminate.
Defined.

Lemma toFixed2_fixed_le (x a : number) : toFixed2 a = a -> x <= a -> toFixed2 x <= a.
Proof. intros E H. rewrite <- E. apply toFixed2_mono, H. Qed.

Lemma availableProfitBetting_rounded (s : App.t) :
  toFixed2 (availableProfitBetting s) = availableProfitBetting s.
Proof. unfold availableProfitBetting. apply toFixed2_idem. Qed.

(** X16.  Manual banking from betting never overdraws.  With whole-penny
    payments stored, "Bank now" and a quick bank from the Betting source
    either leave the payments alone or lower the available profit by the
    amount banked, and the available profit that is left is not negative. *)
Theorem manual_betting_bank_never_overdraws (parseFloat : string -> option number)
    (today uuid : string) (s : App.t) :
  Forall (fun q => is_pennies (Payment.amount q)) (App.payments s) ->
  (App.payments (bankNowClick today uuid s) = App.payments s \/
   0 <= availableProfitBetting (bankNowClick today uuid s)) /\
  (App.qSource s = Betting ->
   App.payments (quickBankClick parseFloat today uuid s) = App.payments s \/
   0 <= availableProfitBetting (quickBankClick parseFloat today uuid s)).
Proof.
  intros H.
  assert (K : forall amount note card,
             0 < amount -> amount <= availableProfitBetting s ->
             0 <= availableProfitBetting
                    (bankPayment amount Betting note card today uuid s)).
  { intros amount note card Hpos Hle. unfold bankPayment.
    apply js_le_false_iff in Hpos. rewrite Hpos.
    match goal with |- 0 <= availableProfitBetting (App.setPayments (cons ?p) s) =>
      rewrite (betting_payment_lowers_available_aux s p H) end.
    - simpl. pose proof (toFixed2_fixed_le amount _ (availableProfitBetting_rounded s) Hle).
      lra.
    - simpl. apply toFixed2_pennies.
    - reflexivity. }
  split.
  - unfold bankNowClick, bankFromBettingNow.
    match goal with |- context [js_le ?per 0] => destruct (js_le per 0) eqn:E0 end;
      [left; reflexivity |].
    match goal with |- context [js_lt ?a ?per] => destruct (js_lt a per) eqn:E1 end;
      [left; reflexivity |].
    js_cases. right. apply K; assumption.
  - intros Hq. unfold quickBankClick. rewrite Hq. simpl.
    destruct (js_gt (cleanNumber parseFloat (App.qAmount s)) (availableProfitBetting s)) eqn:E1;
      [left; reflexivity |].
    js_cases.
    destruct (js_le (cleanNumber parseFloat (App.qAmount s)) 0) eqn:E0.
    + left. unfold bankPayment. rewrite E0. reflexivity.
    + js_cases. right.
      change (availableProfitBetting
                (App.setQNote EmptyString
                   (App.setQAmount EmptyString
                      (bankPayment (cleanNumber parseFloat (App.qAmount s)) Betting None
                         (if String.eqb (App.qCard s) "none" then Null else Value (App.qCard s))
                         today uuid s))))
        with (availableProfitBetting
                (bankPayment (cleanNumber parseFloat (App.qAmount s)) Betting None
                   (if String.eqb (App.qCard s) "none" then Null else Value (App.qCard s))
                   today uuid s)).
      apply K; assumption.
Qed.

Lemma manual_betting_bank_never_overdraws_witness :
  (App.payments (bankNowClick "2025-01-03" "u4" richState) = App.payments richState \/
   0 <= availableProfitBetting (bankNowClick "2025-01-03" "u4" richState)) /\
  (App.payments (quickBankClick parseAmount "2025-01-03" "u5" quickBetting)
   = App.payments quickBetting \/
   0 <= availableProfitBetting (quickBankClick parseAmount "2025-01-03" "u5" quickBetting)).
Proof.
  split.
  - apply (proj1 (manual_betting_bank_never_overdraws parseAmount "2025-01-03" "u4" richState
                    (Forall_nil _))).
  - apply (proj2 (manual_betting_bank_never_overdraws parseAmount "2025-01-03" "u5"
                    quickBetting (Forall_nil _))).
    reflexivity.
Defined.

Example quickBank_betting_example :
  Forall2 Qeq
    (map Payment.amount
       (App.payments (quickBankClick parseAmount "2025-01-03" "u5" quickBetting)))
    [120.40] /\
  availableProfitBetting (quickBankClick parseAmount "2025-01-03" "u5" quickBetting) == 169.60.
Proof. split; [repeat constructor |]; vm_compute; reflexivity. Qed.

(** ** Adding, removing and updating records *)

Lemma newBet_id (form : PartialBet.t) (now uuid : string) (b : Bet.t) :
  newBet form now uuid = Some b ->
  Bet.id b = uuid /\ Bet.createdAt b = now /\ Bet.updatedAt b = now.
Proof.
  unfold newBet.
  destruct (PartialBet.date form) as [d |]; [| discriminate].
  destruct (PartialBet.description form) as [de |]; [| discriminate].
  destruct (PartialBet.sport form) as [sp |]; [| discriminate].
  destruct (PartialBet.stake form) as [st |]; [| discriminate].
  destruct (PartialBet.oddsDecimal form) as [od |]; [| discriminate].
  destruct (PartialBet.status form) as [status |]; [| discriminate].
  destruct (String.eqb d EmptyString || String.eqb de EmptyString); [discriminate |].
  intros H. injection H as <-. repeat split.
Qed.

(** X17.  Removing what was just added restores the list.  For an id that no
    stored record carries: a banked payment removed by that id gives back
    the state, a bet added and removed by that id gives back the bets, and a
    card added and removed by that id gives back the state. *)
Theorem remove_after_add (parseFloat : string -> option number) (uuid : string) (s : App.t) :
  (forall amount source note card today,
      Forall (fun p => negb (String.eqb (Payment.id p) uuid) = true) (App.payments s) ->
      removePayment uuid (bankPayment amount source note card today uuid s) = s) /\
  (forall now today,
      Forall (fun b => negb (String.eqb (Bet.id b) uuid) = true) (App.bets s) ->
      App.bets (removeBet uuid (addBet now uuid today s)) = App.bets s) /\
  (forall name bal,
      Forall (fun c => negb (String.eqb (DebtCard.id c) uuid) = true) (App.cards s) ->
      removeCard uuid (addCardClick parseFloat name bal uuid s) = s).
Proof.
  split; [| split].
  - intros amount source note card today Hf. unfold bankPayment, removePayment.
    destruct (js_le amount 0); unfold App.setPayments; simpl.
    + rewrite (filter_fresh _ _ Hf). apply app_eta.
    + rewrite String.eqb_refl. simpl. rewrite (filter_fresh _ _ Hf). apply app_eta.
  - intros now today Hf. unfold addBet.
    destruct (newBet (App.form s) now uuid) as [b |] eqn:E.
    + pose proof (proj1 (newBet_id _ _ _ _ E)) as Hid.
      simpl. rewrite Hid, String.eqb_refl. simpl. apply filter_fresh, Hf.
    + simpl. apply filter_fresh, Hf.
  - intros name bal Hf. unfold addCardClick, removeCard.
    destruct (String.eqb name EmptyString || js_le (cleanNumber parseFloat bal) 0);
      unfold App.setCards; simpl.
    + rewrite (filter_fresh _ _ Hf). apply app_eta.
    + rewrite String.eqb_refl. simpl. rewrite (filter_fresh _ _ Hf). apply app_eta.
Qed.

Lemma remove_after_add_witness :
  removePayment "n1" (bankPayment 40 Savings None Null "2025-03-09" "n1" cardsState)
  = cardsState /\
  App.bets (removeBet "n1" (addBet "2025-01-02T08:00:00.000Z" "n1" "2025-01-02"
                              (App.setForm (fun _ => pendingForm) settledState)))
  = App.bets (App.setForm (fun _ => pendingForm) settledState) /\
  removeCard "n1" (addCardClick parseBalance "Visa" "1200" "n1" cardsState) = cardsState.
Proof.
  split; [| split].
  - apply (proj1 (remove_after_add parseBalance "n1" cardsState)).
    repeat constructor.
  - apply (proj1 (proj2 (remove_after_add parseBalance "n1"
                           (App.setForm (fun _ => pendingForm) settledState)))).
    repeat constructor.
  - apply (proj2 (proj2 (remove_after_add parseBalance "n1" cardsState))).
    repeat constructor.
Defined.

(** X18.  [updateBet] with a patch that carries no id touches only the
    bets with the given id: the sequence of ids is unchanged, bets with
    another id are kept as they are, every bet with the id gets the new
    [updatedAt], and when no bet has the id the list is unchanged. *)
Theorem updateBet_touches_only_its_bet (id : string) (patch : PartialBet.t)
    (updatedNow settledNow : string) (s : App.t) :
  PartialBet.id patch = None ->
  map Bet.id (App.bets (updateBet id patch updatedNow settledNow s))
  = map Bet.id (App.bets s) /\
  (forall b, In b (App.bets s) -> Bet.id b <> id ->
             In b (App.bets (updateBet id patch updatedNow settledNow s))) /\
  (forall b, In b (App.bets (updateBet id patch updatedNow settledNow s)) ->
             Bet.id b = id -> Bet.updatedAt b = updatedNow) /\
  (Forall (fun b => Bet.id b <> id) (App.bets s) ->
   App.bets (updateBet id patch updatedNow settledNow s) = App.bets s).
Proof.
  intros Hp. unfold updateBet. simpl.
  split; [| split; [| split]].
  - rewrite map_map. apply map_ext. intros b.
    destruct (String.eqb (Bet.id b) id); [| reflexivity].
    simpl. rewrite Hp. reflexivity.
  - intros b Hin Hne. apply in_map_iff. exists b. split; [| exact Hin].
    apply String.eqb_neq in Hne. rewrite Hne. reflexivity.
  - intros b Hin Hid. apply in_map_iff in Hin. destruct Hin as [b0 [E _]].
    destruct (String.eqb (Bet.id b0) id) eqn:E0.
    + subst b. reflexivity.
    + subst b. apply String.eqb_neq in E0. congruence.
  - intros Hf. induction (App.bets s) as [| b l IH]; simpl; [reflexivity |].
    inversion Hf as [| ? ? Hb Hl]; subst.
    apply String.eqb_neq in Hb. rewrite Hb, (IH Hl). reflexivity.
Qed.

Lemma updateBet_touches_only_its_bet_witness :
  map Bet.id (App.bets (updateBet "b1" (PartialBet.ofStatus Lost) "t1" "t1" settledState))
  = map Bet.id (App.bets settledState) /\
  App.bets (updateBet "zz" (PartialBet.ofStatus Lost) "t1" "t1" settledState)
  = App.bets settledState.
Proof.
  split.
  - apply (updateBet_touches_only_its_bet "b1" (PartialBet.ofStatus Lost) "t1" "t1"
             settledState eq_refl).
  - apply (proj2 (proj2 (proj2 (updateBet_touches_only_its_bet "zz"
                                  (PartialBet.ofStatus Lost) "t1" "t1" settledState eq_refl)))).
    repeat constructor. discriminate.
Defined.

Lemma patchBet_stamped (b : Bet.t) (patch : PartialBet.t) (u n : string) :
  (exists v, patch = PartialBet.ofStatus v) \/ (exists o, patch = PartialBet.ofReturnOverride o) ->
  bet_stamped b -> bet_stamped (patchBet b patch u n).
Proof.
  intros [[v ->] | [o ->]] H.
  - unfold bet_stamped. simpl. destruct v; intros Hs; [congruence | |]; eexists; reflexivity.
  - unfold bet_stamped in *. simpl. intros Hs. apply H in Hs.
    destruct Hs as [t Ht]. exists t. exact Ht.
Qed.

Lemma updateBet_stamped (id : string) (patch : PartialBet.t) (u n : string) (s : App.t) :
  (exists v, patch = PartialBet.ofStatus v) \/ (exists o, patch = PartialBet.ofReturnOverride o) ->
  Forall bet_stamped (App.bets s) ->
  Forall bet_stamped (App.bets (updateBet id patch u n s)).
Proof.
  intros Hp H. unfold updateBet. simpl. apply Forall_forall. intros b Hin.
  apply in_map_iff in Hin. destruct Hin as [b0 [E Hin0]].
  rewrite Forall_forall in H. pose proof (H b0 Hin0) as Hb0.
  destruct (String.eqb (Bet.id b0) id); subst b; [apply patchBet_stamped; assumption | exact Hb0].
Qed.

(** X19.  A settled bet always carries its settlement time: if every stored
    bet whose status is Won or Lost has a [settledAt] value, the same holds
    after every handler, hence along every run. *)
Theorem settled_bets_stay_stamped (parseFloat : string -> option number)
    (numberToString : number -> string) (acts : list Action) (s : App.t) :
  Forall bet_stamped (App.bets s) ->
  Forall bet_stamped (App.bets (run parseFloat numberToString acts s)).
Proof.
  revert s. unfold run. induction acts as [| a acts IH]; intros s H; simpl; [exact H |].
  apply IH. clear IH.
  destruct a; simpl; try exact H.
  - unfold autoBankEffect.
    destruct (autoBank (App.settings s) (App.cards s) (availableProfitBetting s)
                       (App.bankedMilestones s) today uuid) as [[p n] |]; exact H.
  - unfold addBet. destruct (newBet (App.form s) now uuid) as [b |] eqn:E; [| exact H].
    simpl. constructor; [| exact H].
    pose proof (newBet_settledAt _ _ _ _ E) as K. unfold bet_stamped.
    destruct (Bet.status b); intros Hs; [congruence | |]; eexists; exact K.
  - apply updateBet_stamped; [left; eexists; reflexivity | exact H].
  - unfold removeBet. simpl. apply Forall_forall. intros b Hb.
    apply filter_In in Hb. rewrite Forall_forall in H. apply H, Hb.
  - unfold saveReturnEditor.
    destruct (EditingReturn.id (App.editingReturn s)) as [id |]; [| exact H].
    destruct (String.eqb id EmptyString); [exact H |].
    change (App.bets (App.setEditingReturn ?f ?x)) with (App.bets x).
    apply updateBet_stamped; [right; eexists; reflexivity | exact H].
  - unfold quickBankClick, bankPayment.
    repeat match goal with |- context [if ?c then _ else _] => destruct c end; exact H.
  - unfold bankNowClick, bankFromBettingNow, bankPayment.
    repeat match goal with |- context [if ?c then _ else _] => destruct c end; exact H.
  - unfold addCardClick.
    destruct (String.eqb name EmptyString || js_le (cleanNumber parseFloat bal) 0); exact H.
Qed.

Lemma settled_bets_stay_stamped_witness :
  Forall bet_stamped
    (App.bets
       (run parseZero printNothing
          [StatusControl "b1" Lost "t1" "t1"; StatusControl "b1" Pending "t2" "t2";
           StatusControl "b1" Won "t3" "t3"] settledState)).
Proof.
  apply (settled_bets_stay_stamped parseZero printNothing
           [StatusControl "b1" Lost "t1" "t1"; StatusControl "b1" Pending "t2" "t2";
            StatusControl "b1" Won "t3" "t3"] settledState).
  repeat constructor. intros _. eexists. reflexivity.
Defined.

(** ** Text input *)

Lemma replaceCommas_idem (s : string) : replaceCommas (replaceCommas s) = replaceCommas s.
Proof.
  induction s as [| c r IH]; simpl; [reflexivity |]. rewrite IH. f_equal.
  destruct (Ascii.eqb c ",") eqn:E; [reflexivity |]. rewrite E. reflexivity.
Qed.

Lemma replaceCommas_empty (s : string) :
  String.eqb (replaceCommas s) EmptyString = String.eqb s EmptyString.
Proof. destruct s; reflexivity. Qed.

(** X20.  [cleanNumber] reads a comma as a decimal point: two texts that
    differ only in commas against points give the same number, whatever
    [parseFloat] does; the empty text and any text [parseFloat] rejects give
    0. *)
Theorem cleanNumber_commas (parseFloat : string -> option number) :
  (forall v w, replaceCommas v = replaceCommas w ->
               cleanNumber parseFloat v = cleanNumber parseFloat w) /\
  cleanNumber parseFloat EmptyString = 0 /\
  (forall v, parseFloat (replaceCommas v) = None -> cleanNumber parseFloat v = 0).
Proof.
  split; [| split].
  - intros v w H. unfold cleanNumber.
    rewrite <- (replaceCommas_empty v), <- (replaceCommas_empty w), H. reflexivity.
  - reflexivity.
  - intros v H. unfold cleanNumber. rewrite H. destruct (String.eqb v EmptyString); reflexivity.
Qed.

Lemma cleanNumber_commas_witness :
  cleanNumber parseZero "12,5" = cleanNumber parseZero "12.5" /\
  cleanNumber parseZero "abc" = 0.
Proof.
  split.
  - apply (proj1 (cleanNumber_commas parseZero)). reflexivity.
  - apply (proj2 (proj2 (cleanNumber_commas parseZero))). reflexivity.
Defined.

Lemma is_integer_round (x : number) : is_integer (Math_round x).
Proof. exists (Qfloor (x + (1 # 2))). reflexivity. Qed.

(** X21.  Whatever is typed into the "Bank percent" field, the stored
    percentage is a whole number between 0 and 100, and no other setting
    changes. *)
Theorem bank_percent_is_clamped (parseFloat : string -> option number)
    (numberToString : number -> string) (v : string) (s : App.t) :
  0 <= Settings.bankPercentOnTarget
         (App.settings (step parseFloat numberToString (BankPercent v) s)) /\
  Settings.bankPercentOnTarget
    (App.settings (step parseFloat numberToString (BankPercent v) s)) <= 100 /\
  is_integer (Settings.bankPercentOnTarget
                (App.settings (step parseFloat numberToString (BankPercent v) s))) /\
  Settings.targetAmount (App.settings (step parseFloat numberToString (BankPercent v) s))
  = Settings.targetAmount (App.settings s) /\
  Settings.autoBankEnabled (App.settings (step parseFloat numberToString (BankPercent v) s))
  = Settings.autoBankEnabled (App.settings s).
Proof.
  simpl. generalize (cleanNumber parseFloat v) as x. intros x.
  pose proof (is_integer_round x) as Hi.
  unfold Math_max, Math_min.
  destruct (js_lt (Math_round x) 100) eqn:E1.
  - destruct (js_lt 0 (Math_round x)) eqn:E2; js_cases.
    + repeat split; try lra; exact Hi.
    + repeat split; try lra. exists 0%Z. reflexivity.
  - destruct (js_lt 0 100) eqn:E2; js_cases; [| lra].
    repeat split; try lra. exists 100%Z. reflexivity.
Qed.

(** ** User interface state *)

(** X22.  [toggleSection] flips the flag of its section and no other, and
    toggling twice gives back the state. *)
Theorem toggleSection_involutive (key key' : UIKey) (s : App.t) :
  toggleSection key (toggleSection key s) = s /\
  ui_flag key (App.ui (toggleSection key s)) = negb (ui_flag key (App.ui s)) /\
  (key' <> key ->
   ui_flag key' (App.ui (toggleSection key s)) = ui_flag key' (App.ui s)).
Proof.
  split; [| split].
  - destruct s as [b st p n c u f e qa qs qc qn]. destruct u as [o q ca be r bl].
    destruct key; unfold toggleSection, App.setUI; simpl; rewrite negb_involutive; reflexivity.
  - destruct key; reflexivity.
  - intros H. destruct key, key'; try reflexivity; congruence.
Qed.

Lemma toggleSection_involutive_witness :
  ui_flag KOverview (App.ui (toggleSection KCards (initialState "2025-01-01")))
  = ui_flag KOverview (App.ui (initialState "2025-01-01")).
Proof.
  apply (proj2 (proj2 (toggleSection_involutive KCards KOverview (initialState "2025-01-01")))).
  discriminate.
Defined.

(** ** Adding a bet *)

Lemma trimStart_all_spaces (s : string) : all_spaces s = true -> trimStart s = EmptyString.
Proof.
  induction s as [| c r IH]; simpl; [reflexivity |].
  intros H. apply andb_true_iff in H. destruct H as [Hc Hr]. rewrite Hc. apply IH, Hr.
Qed.

(** X23.  [addBet] checks the description before it trims it: with the
    other fields filled in, a description that is not empty but consists
    only of white space is accepted, and the bet is stored with an empty
    description. *)
Theorem addBet_blank_description (form : PartialBet.t) (now uuid today : string)
    (d date : string) (sp : Sport) (st od : number) (status : BetStatus) (s : App.t) :
  App.form s = form ->
  PartialBet.description form = Some d -> d <> EmptyString -> all_spaces d = true ->
  PartialBet.date form = Some date -> date <> EmptyString ->
  PartialBet.sport form = Some sp -> PartialBet.stake form = Some st ->
  PartialBet.oddsDecimal form = Some od -> PartialBet.status form = Some status ->
  exists b,
    App.bets (addBet now uuid today s) = b :: App.bets s /\
    Bet.description b = EmptyString /\
    App.form (addBet now uuid today s) = blankForm today.
Proof.
  intros Hf Hd Hne Hsp Hdate Hdne Hs Hst Hod Hstatus.
  unfold addBet, newBet. rewrite Hf, Hdate, Hd, Hs, Hst, Hod, Hstatus.
  apply String.eqb_neq in Hne. apply String.eqb_neq in Hdne. rewrite Hne, Hdne. simpl.
  eexists. split; [reflexivity |]. split; [| reflexivity].
  simpl. unfold trim. rewrite (trimStart_all_spaces d Hsp). reflexivity.
Qed.

Lemma addBet_blank_description_witness :
  exists b,
    App.bets (addBet "2025-01-02T08:00:00.000Z" "n2" "2025-01-02"
                (App.setForm (fun _ => PartialBet.setDescription "   " pendingForm)
                   settledState))
    = b :: App.bets (App.setForm (fun _ => PartialBet.setDescription "   " pendingForm)
                       settledState) /\
    Bet.description b = EmptyString /\
    App.form (addBet "2025-01-02T08:00:00.000Z" "n2" "2025-01-02"
                (App.setForm (fun _ => PartialBet.setDescription "   " pendingForm)
                   settledState))
    = blankForm "2025-01-02".
Proof.
  apply (addBet_blank_description (PartialBet.setDescription "   " pendingForm)
           "2025-01-02T08:00:00.000Z" "n2" "2025-01-02" "   " "2025-01-01" Football 5 2
           Pending); first [reflexivity | discriminate].
Defined.

(** ** Date stamp *)

Lemma year_has_four_digits (y : nat) :
  (1000 <= y < 10 * 1000)%nat -> String.length (String_of_nat y) = 4%nat.
Proof.
  intros H.
  assert (C : forallb (fun n => Nat.eqb (String.length (String_of_nat n)) 4)
                      (seq 1000 (9 * 1000)) = true) by (vm_compute; reflexivity).
  rewrite forallb_forall in C. apply Nat.eqb_eq, C, in_seq. lia.
Qed.

Lemma padStart2_two_chars (n : nat) :
  (n <= 99)%nat -> String.length (padStart2 (String_of_nat n)) = 2%nat.
Proof.
  intros H.
  assert (C : forallb (fun k => Nat.eqb (String.length (padStart2 (String_of_nat k))) 2)
                      (seq 0 100) = true) by (vm_compute; reflexivity).
  rewrite forallb_forall in C. apply Nat.eqb_eq, C, in_seq. lia.
Qed.

Lemma length_two_inv (s : string) :
  String.length s = 2%nat -> exists a b, s = String a (String b EmptyString).
Proof.
  destruct s as [| a [| b [| c r]]]; simpl; intros H; try discriminate H.
  exists a, b. reflexivity.
Qed.

Lemma length_four_inv (s : string) :
  String.length s = 4%nat ->
  exists a b c d, s = String a (String b (String c (String d EmptyString))).
Proof.
  destruct s as [| a [| b [| c [| d [| e r]]]]]; simpl; intros H; try discriminate H.
  exists a, b, c, d. reflexivity.
Qed.

(** X24.  For a four-digit year, a month index 0 to 11 and a day up to 31
    the date stamp has the shape [yyyy-mm-dd]: ten characters with a dash
    at positions 4 and 7, starting with the year as printed. *)
Theorem todayYYYYMMDD_shape (fullYear month date : nat) :
  (1000 <= fullYear < 10 * 1000)%nat -> (month <= 11)%nat -> (date <= 31)%nat ->
  String.length (todayYYYYMMDD fullYear month date) = 10%nat /\
  String.get 4 (todayYYYYMMDD fullYear month date) = Some "-"%char /\
  String.get 7 (todayYYYYMMDD fullYear month date) = Some "-"%char /\
  String.substring 0 4 (todayYYYYMMDD fullYear month date) = String_of_nat fullYear.
Proof.
  intros Hy Hm Hd. unfold todayYYYYMMDD.
  destruct (length_four_inv _ (year_has_four_digits fullYear Hy)) as [a [b [c [d Ey]]]].
  assert (Hm' : (month + 1 <= 99)%nat) by lia.
  assert (Hd' : (date <= 99)%nat) by lia.
  destruct (length_two_inv _ (padStart2_two_chars (month + 1) Hm')) as [m1 [m2 Em]].
  destruct (length_two_inv _ (padStart2_two_chars date Hd')) as [d1 [d2 Ed]].
  rewrite Ey, Em, Ed. repeat split.
Qed.

Lemma todayYYYYMMDD_shape_witness :
  String.length (todayYYYYMMDD 2025 0 7) = 10%nat /\
  String.get 4 (todayYYYYMMDD 2025 0 7) = Some "-"%char /\
  String.get 7 (todayYYYYMMDD 2025 0 7) = Some "-"%char /\
  String.substring 0 4 (todayYYYYMMDD 2025 0 7) = String_of_nat 2025.
Proof.
  apply (todayYYYYMMDD_shape 2025 0 7); lia.
Defined.

Example todayYYYYMMDD_example : todayYYYYMMDD 2025 0 7 = "2025-01-07".
Proof. reflexivity. Qed.

(** ** Quick bank *)



(** ** The paid figure *)

Lemma sumOf_minus {A : Type} (g h : A -> number) (l : list A) :
  sumOf g l - sumOf h l == sumOf (fun x => g x - h x) l.
Proof.
  induction l as [| x l IH]; simpl; [lra |]. rewrite <- IH. lra.
Qed.

Lemma is_pennies_Math_max_0 (x : number) : is_pennies x -> is_pennies (Math_max 0 x).
Proof.
  intros H. unfold Math_max. destruct (js_lt 0 x); [exact H | apply is_pennies_zero].
Qed.

Lemma balance_minus_remaining (b p : number) : b - Math_max 0 (b - p) == Qmin b p.
Proof.
  unfold Math_max. destruct (js_lt 0 (b - p)) eqn:E; js_cases.
  - rewrite Q.min_r by lra. lra.
  - rewrite Q.min_l by lra. lra.
Qed.

(** X26.  What the paid figure is.  With cards whose balances are whole
    pennies, it is the sum over the cards of the payments earmarked to the
    card, capped at the card's balance.  In legacy mode with a whole-penny
    total, it is the sum of all payments capped at the total. *)
Theorem paidShown_is_capped_payments (s : App.t) :
  (App.cards s <> [] ->
   Forall (fun c => is_pennies (DebtCard.balance c)) (App.cards s) ->
   paidShown s
   == sumOf (fun c => Qmin (DebtCard.balance c)
                           (sumPaymentsToCard (App.payments s) (DebtCard.id c)))
            (App.cards s)) /\
  (App.cards s = [] ->
   is_pennies (Settings.debtTotal (App.settings s)) ->
   paidShown s == Qmin (Settings.debtTotal (App.settings s)) (paidTotal s)).
Proof.
  split.
  - intros Hne Hb.
    assert (T : debtTotalEffective s == sumOf DebtCard.balance (App.cards s)).
    { unfold debtTotalEffective. rewrite totalDebt_nonempty by exact Hne.
      apply toFixed2_of_pennies, is_pennies_sumOf, Hb. }
    assert (Pr : Forall (fun c => is_pennies
                           (Math_max 0 (DebtCard.balance c
                                        - sumPaymentsToCard (App.payments s) (DebtCard.id c))))
                        (App.cards s)).
    { eapply Forall_impl; [| exact Hb]. intros c Hc. simpl.
      apply is_pennies_Math_max_0, is_pennies_minus; [exact Hc |].
      rewrite sumPaymentsToCard_sum. apply toFixed2_pennies. }
    assert (R : remainingTotal s
                == sumOf (fun c => Math_max 0 (DebtCard.balance c
                                    - sumPaymentsToCard (App.payments s) (DebtCard.id c)))
                         (App.cards s)).
    { unfold remainingTotal. destruct (App.cards s) as [| c cs] eqn:E; [congruence |].
      rewrite remainingDebtFromCards_sum. apply toFixed2_of_pennies.
      apply (is_pennies_sumOf _ _ Pr). }
    unfold paidShown.
    assert (P : is_pennies (debtTotalEffective s - remainingTotal s)).
    { apply is_pennies_minus.
      - unfold debtTotalEffective. rewrite totalDebt_nonempty by exact Hne.
        apply toFixed2_pennies.
      - unfold remainingTotal. destruct (App.cards s) as [| c cs] eqn:E; [congruence |].
        rewrite remainingDebtFromCards_sum. apply toFixed2_pennies. }
    rewrite (toFixed2_of_pennies _ P), T, R, sumOf_minus.
    apply sumOf_ext_eq. intros c _. apply balance_minus_remaining.
  - intros He Hd.
    assert (T : debtTotalEffective s == Settings.debtTotal (App.settings s)).
    { unfold debtTotalEffective, totalDebt. rewrite He. apply toFixed2_of_pennies, Hd. }
    assert (Pp : is_pennies (paidTotal s)).
    { unfold paidTotal. rewrite sumPayments_all. apply toFixed2_pennies. }
    assert (R : remainingTotal s
                == Math_max 0 (Settings.debtTotal (App.settings s) - paidTotal s)).
    { unfold remainingTotal. rewrite He. unfold Math_max.
      rewrite (js_lt_comp 0 0 _ (Settings.debtTotal (App.settings s) - paidTotal s)
                 (Qeq_refl 0)
                 (toFixed2_of_pennies _ (is_pennies_minus _ _ Hd Pp))).
      destruct (js_lt 0 (Settings.debtTotal (App.settings s) - paidTotal s));
        [apply toFixed2_of_pennies, is_pennies_minus; assumption | reflexivity]. }
    unfold paidShown.
    assert (P : is_pennies (debtTotalEffective s - remainingTotal s)).
    { apply is_pennies_minus.
      - unfold debtTotalEffective, totalDebt. rewrite He. apply toFixed2_pennies.
      - unfold remainingTotal. rewrite He.
        apply is_pennies_Math_max_0, toFixed2_pennies. }
    rewrite (toFixed2_of_pennies _ P), T, R. apply balance_minus_remaining.
Qed.

Lemma paidShown_is_capped_payments_witness :
  paidShown overpaidState
  == sumOf (fun c => Qmin (DebtCard.balance c)
                          (sumPaymentsToCard (App.payments overpaidState) (DebtCard.id c)))
           (App.cards overpaidState) /\
  paidShown legacyPaid == Qmin 800 (paidTotal legacyPaid).
Proof.
  split.
  - apply (proj1 (paidShown_is_capped_payments overpaidState)).
    + discriminate.
    + repeat constructor; simpl; [exists 100000%Z | exists 50000%Z]; reflexivity.
  - apply (proj2 (paidShown_is_capped_payments legacyPaid)).
    + reflexivity.
    + exists 80000%Z. reflexivity.
Defined.

Example paidShown_overpaid : paidShown overpaidState == 1000 /\ remainingTotal overpaidState == 500.
Proof. split; vm_compute; reflexivity. Qed.

(** X27.  When the payments earmarked to every card cover its balance, the
    remaining debt is 0, the paid figure is the total debt, and, for a
    positive total, the progress is 100. *)
Theorem fully_paid (s : App.t) :
  App.cards s <> [] ->
  Forall (fun c => DebtCard.balance c <= sumPaymentsToCard (App.payments s) (DebtCard.id c))
         (App.cards s) ->
  remainingTotal s = 0 /\
  paidShown s = debtTotalEffective s /\
  (0 < debtTotalEffective s -> debtProgress s = 100).
Proof.
  intros Hne Hc.
  assert (R : remainingTotal s = 0).
  { unfold remainingTotal. destruct (App.cards s) as [| c cs] eqn:E; [congruence |].
    rewrite remainingDebtFromCards_sum.
    transitivity (toFixed2 0); [| reflexivity]. apply toFixed2_comp.
    rewrite (sumOf_ext_eq _ (fun _ => 0)).
    - clear. induction (c :: cs) as [| x l IH]; simpl; [reflexivity | rewrite IH; lra].
    - intros x Hx. rewrite Forall_forall in Hc. pose proof (Hc x Hx) as Hb.
      unfold Math_max.
      destruct (js_lt 0 (DebtCard.balance x
                         - sumPaymentsToCard (App.payments s) (DebtCard.id x))) eqn:E1;
        js_cases; [lra | reflexivity]. }
  assert (P : paidShown s = debtTotalEffective s).
  { unfold paidShown. rewrite R.
    transitivity (toFixed2 (debtTotalEffective s));
      [apply toFixed2_comp; lra | apply debtTotalEffective_rounded]. }
  split; [exact R |]. split; [exact P |].
  intros Ht. unfold debtProgress. pose proof Ht as Hg. apply js_gt_iff in Hg. rewrite Hg, P.
  assert (E : debtTotalEffective s / debtTotalEffective s * 100 == inject_Z 100).
  { assert (debtTotalEffective s / debtTotalEffective s == 1) by (field; lra).
    rewrite H. reflexivity. }
  unfold Math_round. rewrite (Qfloor_comp _ _ (Qplus_comp _ _ E _ _ (Qeq_refl (1 # 2)))).
  rewrite Qfloor_half. reflexivity.
Qed.

Lemma fully_paid_witness :
  remainingTotal paidOffState = 0 /\
  paidShown paidOffState = debtTotalEffective paidOffState /\
  debtProgress paidOffState = 100.
Proof.
  assert (Hne : App.cards paidOffState <> []) by discriminate.
  assert (Hc : Forall (fun c => DebtCard.balance c
                                <= sumPaymentsToCard (App.payments paidOffState) (DebtCard.id c))
                      (App.cards paidOffState)).
  { repeat constructor; vm_compute; discriminate. }
  destruct (fully_paid paidOffState Hne Hc) as [R [P D]].
  split; [exact R |]. split; [exact P |]. apply D. vm_compute. reflexivity.
Defined.

(** ** Figures of the lists against the overview *)

(** X28.  The cards list and the overview agree: with whole-penny
    balances, the "Remaining" figures shown card by card add up to the
    remaining debt of the overview. *)
Theorem card_rows_add_up (s : App.t) :
  App.cards s <> [] ->
  Forall (fun c => is_pennies (DebtCard.balance c)) (App.cards s) ->
  sumOf (fun c => cardRemaining c (App.payments s)) (App.cards s) == remainingTotal s.
Proof.
  intros Hne Hb.
  assert (E : forall c, In c (App.cards s) ->
              cardRemaining c (App.payments s)
              == Math_max 0 (DebtCard.balance c
                             - sumPaymentsToCard (App.payments s) (DebtCard.id c))).
  { intros c Hin. rewrite Forall_forall in Hb.
    assert (P : is_pennies (DebtCard.balance c
                            - sumPaymentsToCard (App.payments s) (DebtCard.id c))).
    { apply is_pennies_minus; [apply Hb, Hin |].
      rewrite sumPaymentsToCard_sum. apply toFixed2_pennies. }
    unfold cardRemaining, Math_max.
    rewrite (js_lt_comp 0 0 _ _ (Qeq_refl 0) (toFixed2_of_pennies _ P)).
    destruct (js_lt 0 (DebtCard.balance c
                       - sumPaymentsToCard (App.payments s) (DebtCard.id c)));
      [apply toFixed2_of_pennies, P | reflexivity]. }
  rewrite (sumOf_ext_eq _ _ _ E).
  unfold remainingTotal. destruct (App.cards s) as [| c cs] eqn:Ec; [congruence |].
  rewrite remainingDebtFromCards_sum. symmetry. apply toFixed2_of_pennies, is_pennies_sumOf.
  eapply Forall_impl; [| exact Hb]. intros x Hx. simpl.
  apply is_pennies_Math_max_0, is_pennies_minus; [exact Hx |].
  rewrite sumPaymentsToCard_sum. apply toFixed2_pennies.
Qed.

Lemma card_rows_add_up_witness :
  sumOf (fun c => cardRemaining c (App.payments cardsState)) (App.cards cardsState)
  == remainingTotal cardsState.
Proof.
  apply (card_rows_add_up cardsState).
  - discriminate.
  - repeat constructor; simpl; [exists 100000%Z | exists 50000%Z]; reflexivity.
Defined.

Lemma settledOf_status (bets : list Bet.t) (b : Bet.t) :
  In b (settledOf bets) -> Bet.status b <> Pending.
Proof.
  unfold settledOf. intros H. apply filter_In in H. destruct H as [_ H].
  destruct (Bet.status b); [discriminate | |]; discriminate.
Qed.

(** X29.  The bet log and the statistics agree.  A row shows no profit
    exactly when the bet is pending and has no override; and when stakes and
    overrides are whole pennies, the profit figures of the settled rows add
    up to the profit of the statistics. *)
Theorem bet_rows_add_up (bets : list Bet.t) (t : number) :
  (forall b, rowProfit b = None <->
             (Bet.status b = Pending /\ not_nullish (Bet.returnOverride b) = false)) /\
  (Forall (fun b => is_pennies (Bet.stake b) /\
                    forall v, Bet.returnOverride b = Value v -> is_pennies v) bets ->
   sumOf (fun b => match rowProfit b with Some x => x | None => 0 end) (settledOf bets)
   == Stats.profit (computeStats bets t)).
Proof.
  split.
  - intros b. unfold rowProfit, effectiveReturn.
    destruct (Bet.returnOverride b), (Bet.status b); simpl;
      split; try discriminate; try (intros [? ?]; discriminate); try (split; reflexivity);
      reflexivity.
  - intros H.
    destruct (stats_unfold bets t) as [_ [_ [_ [_ E]]]]. rewrite E.
    assert (R : forall b, In b (settledOf bets) ->
                exists r, effectiveReturn b = Some r /\ is_pennies r /\
                          is_pennies (Bet.stake b)).
    { intros b Hin. pose proof (settledOf_status _ _ Hin) as Hs.
      unfold settledOf in Hin. apply filter_In in Hin. destruct Hin as [Hin _].
      rewrite Forall_forall in H. destruct (H b Hin) as [Hst Hov].
      unfold effectiveReturn.
      destruct (Bet.returnOverride b) as [| | v] eqn:Eo.
      - destruct (Bet.status b); [congruence | |]; simpl; eexists;
          (split; [reflexivity | split; [| exact Hst]]);
          [apply toFixed2_pennies | apply is_pennies_zero].
      - destruct (Bet.status b); [congruence | |]; simpl; eexists;
          (split; [reflexivity | split; [| exact Hst]]);
          [apply toFixed2_pennies | apply is_pennies_zero].
      - exists v. split; [reflexivity |]. split; [apply Hov; reflexivity | exact Hst]. }
    assert (Pw : forall b, In b (settledOf bets) ->
                 match rowProfit b with Some x => x | None => 0 end
                 == match effectiveReturn b with Some r => r | None => 0 end - Bet.stake b).
    { intros b Hin. destruct (R b Hin) as [r [Er [Pr Ps]]].
      unfold rowProfit. rewrite Er. apply toFixed2_of_pennies, is_pennies_minus; assumption. }
    rewrite (sumOf_ext_eq _ _ _ Pw), <- sumOf_minus.
    symmetry. apply toFixed2_of_pennies, is_pennies_minus.
    + apply is_pennies_sumOf, Forall_forall. intros b Hin.
      destruct (R b Hin) as [r [Er [Pr _]]]. rewrite Er. exact Pr.
    + apply is_pennies_sumOf, Forall_forall. intros b Hin.
      destruct (R b Hin) as [r [_ [_ Ps]]]. exact Ps.
Qed.

Lemma bet_rows_add_up_witness :
  sumOf (fun b => match rowProfit b with Some x => x | None => 0 end) (settledOf sample)
  == Stats.profit (computeStats sample 100).
Proof.
  apply (proj2 (bet_rows_add_up sample 100)).
  repeat constructor; simpl;
    first [exists 1000%Z; reflexivity | exists 500%Z; reflexivity | discriminate].
Defined.

(** ** Re-evaluating the effect *)

(** X30.  The auto-bank effect is safe to re-run: however many times in a
    row it is evaluated, with whatever dates and ids, the state is the one
    left by the first evaluation. *)
Theorem autoBankEffect_repeated (parseFloat : string -> option number)
    (numberToString : number -> string) (today uuid : string)
    (again : list (string * string)) (s : App.t) :
  run parseFloat numberToString
    (AutoBankEffect today uuid :: map (fun tu => AutoBankEffect (fst tu) (snd tu)) again) s
  = autoBankEffect today uuid s.
Proof.
  unfold run. simpl.
  induction again as [| [t u] rest IH]; simpl; [reflexivity |].
  rewrite autoBankEffect_idempotent. exact IH.
Qed.

Example autoBankEffect_repeated_example :
  map Payment.amount
    (App.payments
       (run parseZero printNothing
          [AutoBankEffect "2025-01-02" "u1"; AutoBankEffect "2025-01-02" "u2";
           AutoBankEffect "2025-01-03" "u3"] richState)) = [100].
Proof. vm_compute. reflexivity. Qed.
